(** * Enscriber: element capture, XPath generation and the recording state

    A shallow embedding of the parts of [enscriber.user.js] that decide how a
    clicked element is described (ElementSelector), how the recording state
    object is updated (StateManager) and how a session is started, paused,
    resumed and stopped (RecordingEngine, EnscribeCore).

    JavaScript strings are modelled as [string]; a character stands for one
    code unit below 256.  Objects that the script only ever rebuilds with the
    spread operator are modelled as immutable records. *)

From Stdlib Require Import ZArith Ascii String Lia.
From stdpp Require Import base tactics option list strings pretty gmap.

Set Warnings "-register-all".
Local Open Scope string_scope.
Local Open Scope list_scope.

(** ** JavaScript string primitives used by the script *)

Module JS.

(** The double quote character, used inside generated selectors. *)
Definition dquote : string := String "034"%char EmptyString.

(** [String.prototype.toLowerCase] on one code unit below 256: the letters
    A-Z, and the capital letters of the Latin-1 block (192-222, without the
    multiplication sign 215), move up by 32. *)
Definition lowerChar (c : ascii) : ascii :=
  let n := nat_of_ascii c in
  if ((65 <=? n)%nat && (n <=? 90)%nat) ||
     ((192 <=? n)%nat && (n <=? 222)%nat && negb (n =? 215)%nat)
  then ascii_of_nat (n + 32) else c.

Fixpoint toLowerCase (s : string) : string :=
  match s with
  | EmptyString => EmptyString
  | String c r => String (lowerChar c) (toLowerCase r)
  end.

(** White space and line terminators below 256, as [trim] strips them:
    TAB, LF, VT, FF, CR, SPACE and NBSP. *)
Definition isWhiteSpace (c : ascii) : bool :=
  let n := nat_of_ascii c in
  ((9 <=? n)%nat && (n <=? 13)%nat) || (n =? 32)%nat || (n =? 160)%nat.

Fixpoint trimStart (s : string) : string :=
  match s with
  | EmptyString => EmptyString
  | String c r => if isWhiteSpace c then trimStart r else s
  end.

Fixpoint trimEnd (s : string) : string :=
  match s with
  | EmptyString => EmptyString
  | String c r =>
      match trimEnd r with
      | EmptyString => if isWhiteSpace c then EmptyString else String c EmptyString
      | r' => String c r'
      end
  end.

Definition trim (s : string) : string := trimEnd (trimStart s).

(** [s.substring(0, n)]. *)
Definition substring0 (n : nat) (s : string) : string := String.substring 0 n s.

(** [hay.includes(needle)]. *)
Fixpoint includes (needle hay : string) : bool :=
  String.prefix needle hay ||
  match hay with
  | EmptyString => false
  | String _ r => includes needle r
  end.

(** [hay.startsWith(needle)]. *)
Definition startsWith (needle hay : string) : bool := String.prefix needle hay.

(** Truthiness of a string value: only the empty string is falsy. *)
Definition truthy (s : string) : bool :=
  match s with EmptyString => false | _ => true end.

(** [parts.join(sep)]. *)
Definition join (sep : string) (parts : list string) : string :=
  String.concat sep parts.

(** Every character of a string passes a test. *)
Fixpoint allChars (P : ascii -> bool) (s : string) : bool :=
  match s with
  | EmptyString => true
  | String c r => P c && allChars P r
  end.

Definition isNot (c : ascii) (x : ascii) : bool := negb (Ascii.eqb x c).


End JS.

(** ** The document tree *)

Module Dom.

(** [element.className] is a string on HTML elements and an
    SVGAnimatedString object on SVG elements; both reflect the [class]
    attribute. *)
Inductive ClassName :=
| ClassString (s : string)
| ClassAnimated (baseVal : string).

Definition classAttr (c : ClassName) : string :=
  match c with ClassString s => s | ClassAnimated s => s end.

(** The properties of an element that the script reads.  A string
    property that is [undefined] on the element is the empty string here:
    the script only tests these properties for truthiness before it uses
    them.  [selectedOptions] is read without such a test: it is [None] on an
    element that has no such property (every element that is not an HTML
    select element). *)
Record ElementData := {
  tagName : string;
  id : string;
  className : ClassName;
  attributes : list (string * string);
  type : string;
  value : string;
  placeholder : string;
  checked : bool;
  selectedOptions : option (list string)   (* the [text] of each selected option *)
}.

Inductive Node :=
| Elem (e : ElementData) (childNodes : list Node)
| Text (data : string)
| Comment (data : string).

(** [node.textContent]: the text of all descendant text nodes. *)
Fixpoint textContent (n : Node) : string :=
  match n with
  | Elem _ cs => String.concat EmptyString (map textContent cs)
  | Text d => d
  | Comment _ => EmptyString
  end.

(** What [getRootNode()] returns for the nodes of a tree. *)
Inductive Root :=
| RDocument                        (* the page's document *)
| RShadow (hostId : string)        (* a shadow root; the id of its host *)
| RDetached.                       (* the top element of a detached tree *)

(** One tree scope: the root and its child nodes. *)
Record Tree := { root : Root; top : list Node }.

(** A path leads from the root to a node: child indices, outermost first. *)
Definition Path := list nat.

(** An element seen in context: its data, its children and the siblings
    that precede it, in document order. *)
Record Level := {
  before : list Node;
  self : ElementData;
  children : list Node
}.

(** The elements met on a path, outermost first.  [None] when the path
    leaves the tree or crosses a node that is not an element. *)
Fixpoint levels (ns : list Node) (p : Path) : option (list Level) :=
  match p with
  | [] => Some []
  | i :: p' =>
      match ns !! i with
      | Some (Elem e cs) =>
          match levels cs p' with
          | Some ls => Some ({| before := take i ns; self := e; children := cs |} :: ls)
          | None => None
          end
      | _ => None
      end
  end.

(** A reference to an element, as the event handlers hold it: the element
    first, then [parentElement], and so on up to the top of the tree.  The
    empty list stands for [null]. *)
Definition Ancestry := list Level.

Definition ancestry (t : Tree) (p : Path) : Ancestry :=
  match levels (top t) p with
  | Some ls => rev ls
  | None => []
  end.

Definition node_of (l : Level) : Node := Elem (self l) (children l).

End Dom.

Import Dom.

(** ** ElementSelector.generateXPath *)

Module XPath.

(** The inner loop: follow [previousElementSibling] and count the siblings
    whose [tagName] is identical.  [sibs] lists the preceding siblings,
    nearest first; nodes that are not elements are skipped. *)
Fixpoint countPreceding (tag : string) (sibs : list Node) (index : nat) : nat :=
  match sibs with
  | [] => index
  | Elem e _ :: rest =>
      countPreceding tag rest
        (if String.eqb (tagName e) tag then S index else index)
  | _ :: rest => countPreceding tag rest index
  end.

Definition siblingIndex (l : Level) : nat :=
  countPreceding (tagName (self l)) (rev (before l)) 1.

Definition part (l : Level) : string :=
  let index := siblingIndex l in
  let tagName := JS.toLowerCase (tagName (self l)) in
  if (1 <? index)%nat then tagName +:+ "[" +:+ pretty index +:+ "]" else tagName.

(** The outer loop: one part per element, each put in front of the parts
    collected so far. *)
Fixpoint walk (current : Ancestry) (parts : list string) : list string :=
  match current with
  | [] => parts
  | l :: parent => walk parent (part l :: parts)
  end.

Definition generateXPath (element : Ancestry) : string :=
  match element with
  | [] => EmptyString
  | l :: _ =>
      if JS.truthy (id (self l))
      then "//*[@id=" +:+ JS.dquote +:+ id (self l) +:+ JS.dquote +:+ "]"
      else "/" +:+ JS.join "/" (walk element [])
  end.

(** The number of element nodes of a sibling list that carry a tag. *)
Definition sameTag (tag : string) (n : Node) : bool :=
  match n with
  | Elem e _ => String.eqb (tagName e) tag
  | _ => false
  end.

Fixpoint countSame (tag : string) (ns : list Node) : nat :=
  match ns with
  | [] => 0
  | n :: rest => (if sameTag tag n then 1 else 0) + countSame tag rest
  end.






End XPath.

(** ** ElementSelector: exclusion filter, metadata capture, classification *)

Module Capture.

Definition panelId : string := "enscriber-floating-panel".
Definition namespace : string := "enscriber".

(** The four entries of [excludeSelectors]. *)
Inductive Selector :=
| IdIs (v : string)            (* #v *)
| IdStartsWith (v : string)    (* [id^=v] *)
| ClassContains (v : string).  (* [class*=v] *)

Definition excludeSelectors : list Selector :=
  [ IdIs "enscriber-floating-panel";
    IdIs "enscriber-highlight-overlay";
    IdStartsWith "enscriber-";
    ClassContains "enscriber-" ].

Definition matches (sel : Selector) (e : ElementData) : bool :=
  match sel with
  | IdIs v => JS.truthy (id e) && String.eqb (id e) v
  | IdStartsWith v => JS.truthy (id e) && JS.startsWith v (id e)
  | ClassContains v => JS.includes v (classAttr (className e))
  end.

(** [element.closest(sel)]: the element or one of its ancestor elements. *)
Definition closest (sel : Selector) (element : Ancestry) : bool :=
  existsb (fun l => matches sel (self l)) element.

(** [root.host && root.host.id === 'enscriber-floating-panel'] for the
    root that [getRootNode()] returns, when that root is not the document. *)
Definition rootIsPanelShadow (r : Root) : bool :=
  match r with
  | RShadow hostId => String.eqb hostId panelId
  | _ => false
  end.

(** The tests made on one element of the ancestor walk. *)
Definition marked (r : Root) (e : ElementData) : bool :=
  if JS.truthy (id e) && JS.includes namespace (id e) then true
  else if match className e with
          | ClassString s => JS.truthy s && JS.includes namespace s
          | ClassAnimated _ => false
          end then true
  else if String.eqb (id e) panelId then true
  else rootIsPanelShadow r.

(** The [while (currentElement)] loop.  After the top element the loop
    visits its [parentNode]: the document or the shadow root, which carry
    no id and no class name; a detached tree has no such node. *)
Fixpoint ancestorWalk (r : Root) (currentElement : Ancestry) : bool :=
  match currentElement with
  | [] => rootIsPanelShadow r
  | l :: parent => if marked r (self l) then true else ancestorWalk r parent
  end.

Definition isExcludedElement (r : Root) (element : Ancestry) : bool :=
  match element with
  | [] => true
  | _ =>
      if ancestorWalk r element then true
      else existsb (fun sel => closest sel element) excludeSelectors
  end.

Record ParentContext := {
  pc_tagName : string;
  pc_id : option string;
  pc_className : option ClassName;
  childIndex : nat
}.

(** The object built by [captureElementMetadata].  The geometry, the
    visibility flag and the computed styles are copied from the layout
    engine and are left out. *)
Record ElementMetadata := {
  m_tagName : string;
  m_id : option string;
  m_className : option ClassName;
  m_textContent : option string;
  m_attributes : gmap string string;
  parentContext : option ParentContext;
  xpath : string
}.

(** [s || null] on a string. *)
Definition orNull (s : string) : option string :=
  if JS.truthy s then Some s else None.

Definition classOrNull (c : ClassName) : option ClassName :=
  match c with
  | ClassString s => if JS.truthy s then Some c else None
  | ClassAnimated _ => Some c
  end.

Definition isElement (n : Node) : bool :=
  match n with Elem _ _ => true | _ => false end.

(** [getElementAttributes]: an object with one property for every
    attribute of the element, assigned in the order of the attribute list. *)
Definition getElementAttributes (e : ElementData) : gmap string string :=
  fold_left (fun attributes attr => <[attr.1 := attr.2]> attributes) (attributes e) ∅.

Definition getParentContext (element : Ancestry) : option ParentContext :=
  match element with
  | l :: parent :: _ =>
      Some {| pc_tagName := JS.toLowerCase (tagName (self parent));
              pc_id := orNull (id (self parent));
              pc_className := classOrNull (className (self parent));
              childIndex := length (filter (fun n => isElement n = true) (before l)) |}
  | _ => None
  end.

Definition captureElementMetadata (l : Level) (parent : Ancestry) : ElementMetadata :=
  let element := l :: parent in
  let text := textContent (node_of l) in
  {| m_tagName := JS.toLowerCase (tagName (self l));
     m_id := orNull (id (self l));
     m_className := classOrNull (className (self l));
     m_textContent :=
       if JS.truthy text then Some (JS.substring0 100 (JS.trim text)) else None;
     m_attributes := getElementAttributes (self l);
     parentContext := getParentContext element;
     xpath := XPath.generateXPath element |}.

(** The input types that make a click an [input] action, and those that make
    it a [check] action. *)
Definition textTypes : list string :=
  ["text"; "email"; "password"; "search"; "tel"; "url"].

Definition checkTypes : list string := ["checkbox"; "radio"].

(** The action type that [selectElement] detects. *)
Definition detectActionType (e : ElementData) (actionType : string) : string :=
  if String.eqb actionType "click" then
    let tagName := JS.toLowerCase (tagName e) in
    let inputType := if JS.truthy (type e) then JS.toLowerCase (type e) else EmptyString in
    if String.eqb tagName "input" then
      if existsb (String.eqb inputType) textTypes
      then "input"
      else if existsb (String.eqb inputType) checkTypes
      then "check"
      else actionType
    else if String.eqb tagName "textarea" then "input"
    else if String.eqb tagName "select" then "select"
    else actionType
  else actionType.

(** [getElementValue].  [None] stands for the TypeError that the read of
    [element.selectedOptions.length] throws when the element has no
    [selectedOptions]. *)
Definition getElementValue (l : Level) (actionType : string) : option string :=
  let e := self l in
  if String.eqb actionType "input" then
    Some (if JS.truthy (value e) then value e
          else if JS.truthy (placeholder e) then placeholder e
          else EmptyString)
  else if String.eqb actionType "check" then
    Some (if checked e then "checked" else "unchecked")
  else if String.eqb actionType "select" then
    match selectedOptions e with
    | Some (o :: _) => Some o
    | Some [] => Some EmptyString
    | None => None
    end
  else
    let text := textContent (node_of l) in
    Some (if JS.truthy text then JS.substring0 50 (JS.trim text) else EmptyString).

(** The kinds of selector strategy. *)
Inductive StrategyKind := DataAttribute | Semantic | Css | XPathKind | TextBased.

Record CandidateSelector := {
  strategyKind : StrategyKind;
  selector : string
}.

(** The selectors that a capture synthesizes: the metadata object holds
    one, under [xpath].  Its other keys are facts read off the element. *)
Definition selectorSet (m : ElementMetadata) : list CandidateSelector :=
  [ {| strategyKind := XPathKind; selector := xpath m |} ].

(** [className.split(' ')[0]]. *)
Fixpoint firstSegment (s : string) : string :=
  match s with
  | EmptyString => EmptyString
  | String c r => if Ascii.eqb c " "%char then EmptyString else String c (firstSegment r)
  end.

(** The selector that [generatePlaywrightCode] writes for an element
    action: the id, then data-testid, then the first class, then the text,
    then the XPath.  Before it chooses, the function writes a comment line
    for the action, for which it calls [className.split] whenever the class
    name is truthy; [None] stands for the TypeError thrown there when the
    class name is an SVGAnimatedString object, which has no [split]. *)
Definition exportSelector (m : ElementMetadata) : option string :=
  match m_className m with
  | Some (ClassAnimated _) => None
  | _ =>
      match m_id m with
      | Some i => Some ("#" +:+ i)
      | None =>
          match m_attributes m !! "data-testid" with
          | Some (String c r) =>
              Some ("[data-testid=" +:+ JS.dquote +:+ String c r +:+ JS.dquote +:+ "]")
          | _ =>
              match m_className m with
              | Some (ClassString cls) => Some ("." +:+ firstSegment cls)
              | Some (ClassAnimated _) => None
              | None =>
                  match m_textContent m with
                  | Some (String c r) =>
                      Some ("text=" +:+ JS.dquote +:+ JS.substring0 30 (String c r)
                            +:+ JS.dquote)
                  | _ => Some (xpath m)
                  end
              end
          end
      end
  end.

(** What [selectElement] records for a click on an element: the detected
    action type and the value read for that type.  [None] when the read of
    the value throws. *)
Definition classify (l : Level) : option (string * string) :=
  let detectedActionType := detectActionType (self l) "click" in
  value ← getElementValue l detectedActionType;
  Some (detectedActionType, value).

End Capture.

(** ** The recording state: StateManager, RecordingEngine, EnscribeCore *)

Module Recorder.
Import Capture.

Inductive Mode := INACTIVE | AUTO_RECORDING | MANUAL_SELECTION | PAUSED.

(** [ENSCRIBER_CONFIG.modes]. *)
Definition modeString (m : Mode) : string :=
  match m with
  | INACTIVE => "inactive"
  | AUTO_RECORDING => "auto_recording"
  | MANUAL_SELECTION => "manual_selection"
  | PAUSED => "paused"
  end.

Definition allModes : list Mode := [INACTIVE; AUTO_RECORDING; MANUAL_SELECTION; PAUSED].

(** [Object.values(ENSCRIBER_CONFIG.modes).includes(mode)]. *)
Definition parseMode (s : string) : option Mode :=
  List.find (fun m => String.eqb (modeString m) s) allModes.

Definition mode_eqb (a b : Mode) : bool :=
  match a, b with
  | INACTIVE, INACTIVE | AUTO_RECORDING, AUTO_RECORDING
  | MANUAL_SELECTION, MANUAL_SELECTION | PAUSED, PAUSED => true
  | _, _ => false
  end.

Record UiState := {
  panelVisible : bool;
  panelPosition : Z * Z;
  panelSize : Z * Z;
  isCollapsed : bool;
  isDragging : bool;
  isResizing : bool
}.

Record Settings := {
  autoSave : bool;
  highlightElements : bool;
  showTooltips : bool;
  recordingMode : string
}.

Record Context := {
  c_url : string;
  c_title : string;
  c_viewport : Z * Z
}.

(** A captured network request, as far as the action list reads it. *)
Record RequestData := {
  r_id : string;
  r_timestamp : Z;
  r_method : string;
  r_url : string;
  r_status : option Z
}.

(** An action record comes from exactly one source: an element capture
    ([element] and [value]) or a network request ([networkRequest]). *)
Inductive Source :=
| FromElement (element : ElementMetadata) (value : string)
| FromNetwork (networkRequest : RequestData).

Record ActionRecord := {
  a_id : string;
  a_timestamp : Z;
  a_type : string;
  a_source : Source;
  a_notes : string;
  a_context : Context
}.

Record Metadata := {
  md_userAgent : string;
  md_viewport : Z * Z
}.

(** A session object.  The fallback object [{ actions: [] }] has only the
    [actions] key, so every other key may be absent. *)
Record Session := {
  s_id : option string;
  s_name : option string;
  s_url : option string;
  startTime : option Z;
  endTime : option Z;
  actions : list ActionRecord;
  s_settings : option Settings;
  s_metadata : option Metadata
}.

Record SelectedElement := {
  se_element : Ancestry;
  se_metadata : ElementMetadata;
  se_timestamp : Z
}.

(** [StateManager.state].  [selectedElement] and [networkRequests] are
    absent from the initial object; [None] stands for absent or null. *)
Record State := {
  mode : Mode;
  isRecording : bool;
  isPaused : bool;
  currentSession : option Session;
  ui : UiState;
  settings : Settings;
  selectedElement : option SelectedElement;
  networkRequests : option (list RequestData)
}.

(** The top-level keys of the state object. *)
Inductive Key :=
| Kmode | KisRecording | KisPaused | KcurrentSession
| Kui | Ksettings | KselectedElement | KnetworkRequests.

(** One [key: value] entry of an object passed to [setState]. *)
Inductive Update :=
| SetMode (v : Mode)
| SetIsRecording (v : bool)
| SetIsPaused (v : bool)
| SetCurrentSession (v : option Session)
| SetUi (v : UiState)
| SetSettings (v : Settings)
| SetSelectedElement (v : option SelectedElement)
| SetNetworkRequests (v : option (list RequestData)).

Definition Updates := list Update.

Definition keyOf (u : Update) : Key :=
  match u with
  | SetMode _ => Kmode
  | SetIsRecording _ => KisRecording
  | SetIsPaused _ => KisPaused
  | SetCurrentSession _ => KcurrentSession
  | SetUi _ => Kui
  | SetSettings _ => Ksettings
  | SetSelectedElement _ => KselectedElement
  | SetNetworkRequests _ => KnetworkRequests
  end.


Definition assign (s : State) (u : Update) : State :=
  match u with
  | SetMode v =>
      {| mode := v; isRecording := isRecording s; isPaused := isPaused s;
         currentSession := currentSession s; ui := ui s; settings := settings s;
         selectedElement := selectedElement s; networkRequests := networkRequests s |}
  | SetIsRecording v =>
      {| mode := mode s; isRecording := v; isPaused := isPaused s;
         currentSession := currentSession s; ui := ui s; settings := settings s;
         selectedElement := selectedElement s; networkRequests := networkRequests s |}
  | SetIsPaused v =>
      {| mode := mode s; isRecording := isRecording s; isPaused := v;
         currentSession := currentSession s; ui := ui s; settings := settings s;
         selectedElement := selectedElement s; networkRequests := networkRequests s |}
  | SetCurrentSession v =>
      {| mode := mode s; isRecording := isRecording s; isPaused := isPaused s;
         currentSession := v; ui := ui s; settings := settings s;
         selectedElement := selectedElement s; networkRequests := networkRequests s |}
  | SetUi v =>
      {| mode := mode s; isRecording := isRecording s; isPaused := isPaused s;
         currentSession := currentSession s; ui := v; settings := settings s;
         selectedElement := selectedElement s; networkRequests := networkRequests s |}
  | SetSettings v =>
      {| mode := mode s; isRecording := isRecording s; isPaused := isPaused s;
         currentSession := currentSession s; ui := ui s; settings := v;
         selectedElement := selectedElement s; networkRequests := networkRequests s |}
  | SetSelectedElement v =>
      {| mode := mode s; isRecording := isRecording s; isPaused := isPaused s;
         currentSession := currentSession s; ui := ui s; settings := settings s;
         selectedElement := v; networkRequests := networkRequests s |}
  | SetNetworkRequests v =>
      {| mode := mode s; isRecording := isRecording s; isPaused := isPaused s;
         currentSession := currentSession s; ui := ui s; settings := settings s;
         selectedElement := selectedElement s; networkRequests := v |}
  end.

(** [{ ...this.state, ...updates }]. *)
Definition merge (s : State) (updates : Updates) : State :=
  fold_left assign updates s.

(** *** The running script *)

Inductive Severity := LOG | WARN | ERROR.

Inductive Event :=
| ModeChanged (previousMode newMode : Mode)
| SessionStarted (sessionId : string) (sessionData : Session)
| SessionStopped (sessionData : Session)
| SessionPaused
| SessionResumed.

(** What [GM_setValue] holds under a key.  [JSON.stringify] keeps the
    keys of an object and the order of an array, so the stored text is
    identified with the value it encodes.  Every write is taken to succeed;
    the script catches and logs a write that fails and goes on. *)
Inductive Stored :=
| StoredSession (s : Session)
| StoredSettings (u : UiState) (s : Settings).

Record World := {
  state : State;   (* StateManager.state *)
  isSelectionMode : bool;   (* ElementSelector.isSelectionMode *)
  selected : Ancestry;   (* ElementSelector.selectedElement *)
  engineMode : Mode;   (* RecordingEngine.recordingMode *)
  engineRecording : bool;   (* RecordingEngine.isRecording *)
  isMonitoring : bool;   (* NetworkRequestMonitor.isMonitoring *)
  capturedRequests : list RequestData;   (* NetworkRequestMonitor.capturedRequests *)
  storage : gmap string Stored;   (* the GM_setValue store *)
  console : list (Severity * string);   (* console output of the classes modelled here, oldest first *)
  emitted : list Event;   (* events passed to EnscribeCore.emit, oldest first *)
  ticks : nat;   (* number of clock readings made so far *)
  draws : nat   (* number of Math.random() calls made so far *)
}.

Definition with_state (v : State) (w : World) : World :=
  {| state := v; isSelectionMode := isSelectionMode w; selected := selected w;
     engineMode := engineMode w; engineRecording := engineRecording w;
     isMonitoring := isMonitoring w; capturedRequests := capturedRequests w;
     storage := storage w; console := console w; emitted := emitted w;
     ticks := ticks w; draws := draws w |}.

Definition with_isSelectionMode (v : bool) (w : World) : World :=
  {| state := state w; isSelectionMode := v; selected := selected w;
     engineMode := engineMode w; engineRecording := engineRecording w;
     isMonitoring := isMonitoring w; capturedRequests := capturedRequests w;
     storage := storage w; console := console w; emitted := emitted w;
     ticks := ticks w; draws := draws w |}.

Definition with_selected (v : Ancestry) (w : World) : World :=
  {| state := state w; isSelectionMode := isSelectionMode w; selected := v;
     engineMode := engineMode w; engineRecording := engineRecording w;
     isMonitoring := isMonitoring w; capturedRequests := capturedRequests w;
     storage := storage w; console := console w; emitted := emitted w;
     ticks := ticks w; draws := draws w |}.

Definition with_engineMode (v : Mode) (w : World) : World :=
  {| state := state w; isSelectionMode := isSelectionMode w; selected := selected w;
     engineMode := v; engineRecording := engineRecording w;
     isMonitoring := isMonitoring w; capturedRequests := capturedRequests w;
     storage := storage w; console := console w; emitted := emitted w;
     ticks := ticks w; draws := draws w |}.

Definition with_engineRecording (v : bool) (w : World) : World :=
  {| state := state w; isSelectionMode := isSelectionMode w; selected := selected w;
     engineMode := engineMode w; engineRecording := v; isMonitoring := isMonitoring w;
     capturedRequests := capturedRequests w; storage := storage w;
     console := console w; emitted := emitted w; ticks := ticks w; draws := draws w |}.

Definition with_isMonitoring (v : bool) (w : World) : World :=
  {| state := state w; isSelectionMode := isSelectionMode w; selected := selected w;
     engineMode := engineMode w; engineRecording := engineRecording w;
     isMonitoring := v; capturedRequests := capturedRequests w; storage := storage w;
     console := console w; emitted := emitted w; ticks := ticks w; draws := draws w |}.

Definition with_capturedRequests (v : list RequestData) (w : World) : World :=
  {| state := state w; isSelectionMode := isSelectionMode w; selected := selected w;
     engineMode := engineMode w; engineRecording := engineRecording w;
     isMonitoring := isMonitoring w; capturedRequests := v; storage := storage w;
     console := console w; emitted := emitted w; ticks := ticks w; draws := draws w |}.

Definition with_storage (v : gmap string Stored) (w : World) : World :=
  {| state := state w; isSelectionMode := isSelectionMode w; selected := selected w;
     engineMode := engineMode w; engineRecording := engineRecording w;
     isMonitoring := isMonitoring w; capturedRequests := capturedRequests w;
     storage := v; console := console w; emitted := emitted w; ticks := ticks w;
     draws := draws w |}.

Definition with_console (v : list (Severity * string)) (w : World) : World :=
  {| state := state w; isSelectionMode := isSelectionMode w; selected := selected w;
     engineMode := engineMode w; engineRecording := engineRecording w;
     isMonitoring := isMonitoring w; capturedRequests := capturedRequests w;
     storage := storage w; console := v; emitted := emitted w; ticks := ticks w;
     draws := draws w |}.

Definition with_emitted (v : list Event) (w : World) : World :=
  {| state := state w; isSelectionMode := isSelectionMode w; selected := selected w;
     engineMode := engineMode w; engineRecording := engineRecording w;
     isMonitoring := isMonitoring w; capturedRequests := capturedRequests w;
     storage := storage w; console := console w; emitted := v; ticks := ticks w;
     draws := draws w |}.

Definition with_ticks (v : nat) (w : World) : World :=
  {| state := state w; isSelectionMode := isSelectionMode w; selected := selected w;
     engineMode := engineMode w; engineRecording := engineRecording w;
     isMonitoring := isMonitoring w; capturedRequests := capturedRequests w;
     storage := storage w; console := console w; emitted := emitted w; ticks := v;
     draws := draws w |}.

Definition with_draws (v : nat) (w : World) : World :=
  {| state := state w; isSelectionMode := isSelectionMode w; selected := selected w;
     engineMode := engineMode w; engineRecording := engineRecording w;
     isMonitoring := isMonitoring w; capturedRequests := capturedRequests w;
     storage := storage w; console := console w; emitted := emitted w;
     ticks := ticks w; draws := v |}.

(** What the page and the browser supply: the clock behind [Date.now()]
    and [new Date()], the generator behind
    [Math.random().toString(36).substr(2, 9)], and the page facts copied
    into records. *)
Record Host := {
  clock : nat -> Z;
  random : nat -> string;
  toLocaleString : Z -> string;
  href : string;
  title : string;
  innerWidth : Z;
  innerHeight : Z;
  userAgent : string
}.

(** The outcome of a call that may throw. *)
Inductive Outcome :=
| Returned (w : World)
| Thrown (message : string) (w : World).

(** The world in which a call ends, whether it returns or throws. *)
Definition worldOf (o : Outcome) : World :=
  match o with Returned w => w | Thrown _ w => w end.

Definition log (sev : Severity) (msg : string) (w : World) : World :=
  with_console (console w ++ [(sev, msg)]) w.

Definition emit (e : Event) (w : World) : World :=
  with_emitted (emitted w ++ [e]) w.

Section Script.
Context (host : Host).

(** [Date.now()]. *)
Definition dateNow (w : World) : Z * World :=
  (clock host (ticks w), with_ticks (S (ticks w)) w).

(** [Math.random().toString(36).substr(2, 9)]. *)
Definition randomSuffix (w : World) : string * World :=
  (random host (draws w), with_draws (S (draws w)) w).

(** [EnscribeUtils.generateId]. *)
Definition generateId (w : World) : string * World :=
  let (t, w) := dateNow w in
  let (r, w) := randomSuffix w in
  (namespace +:+ "_" +:+ pretty t +:+ "_" +:+ r, w).

Definition generateActionId (w : World) : string * World :=
  let (t, w) := dateNow w in
  let (r, w) := randomSuffix w in
  ("action_" +:+ pretty t +:+ "_" +:+ r, w).

Definition pageContext : Context :=
  {| c_url := href host; c_title := title host;
     c_viewport := (innerWidth host, innerHeight host) |}.

(** [StateManager.getState]: a new object with the same top-level keys. *)
Definition getState (w : World) : State := state w.

(** [StateManager.saveState]. *)
Definition saveState (w : World) : World :=
  with_storage
    (<["settings" := StoredSettings (ui (state w)) (settings (state w))]> (storage w)) w.

Definition sessionKey (sessionData : Session) : string :=
  "enscriber_session_" +:+ default "undefined" (s_id sessionData).

(** [{ ...session, endTime: t }]. *)
Definition withEndTime (t : Z) (s : Session) : Session :=
  {| s_id := s_id s; s_name := s_name s; s_url := s_url s;
     startTime := startTime s; endTime := Some t; actions := actions s;
     s_settings := s_settings s; s_metadata := s_metadata s |}.

(** [{ ...session, actions: a }]. *)
Definition withActions (a : list ActionRecord) (s : Session) : Session :=
  {| s_id := s_id s; s_name := s_name s; s_url := s_url s;
     startTime := startTime s; endTime := endTime s; actions := a;
     s_settings := s_settings s; s_metadata := s_metadata s |}.

(** [{ actions: [] }]. *)
Definition emptySession : Session :=
  {| s_id := None; s_name := None; s_url := None; startTime := None;
     endTime := None; actions := []; s_settings := None; s_metadata := None |}.

(** **** Code that runs inside a state listener

    The listener that RecordingEngine registers calls [setState] again;
    [setState] below stands for that re-entrant call. *)
Section Listener.
Variable setState : Updates -> World -> option World.

(** [ElementSelector.enableSelectionMode]. *)
Definition enableSelectionMode (w : World) : option World :=
  if isSelectionMode w then Some w
  else
    w ← setState [SetMode MANUAL_SELECTION] (with_isSelectionMode true w);
    Some (log LOG "Enscriber: Element selection mode enabled" w).

(** [ElementSelector.disableSelectionMode]. *)
Definition disableSelectionMode (w : World) : World :=
  if isSelectionMode w
  then log LOG "Enscriber: Element selection mode disabled"
         (with_isSelectionMode false w)
  else w.

(** [NetworkRequestMonitor.startMonitoring]. *)
Definition startMonitoring (w : World) : World :=
  if isMonitoring w then w
  else log LOG "Enscriber: Network request monitoring started"
         (with_capturedRequests [] (with_isMonitoring true w)).

(** [NetworkRequestMonitor.stopMonitoring]. *)
Definition stopMonitoring (w : World) : World :=
  if isMonitoring w
  then log LOG "Enscriber: Network request monitoring stopped"
         (with_isMonitoring false w)
  else w.

(** [RecordingEngine.initializeSession]. *)
Definition initializeSession (w : World) : option World :=
  let (t, w) := dateNow w in
  let (r, w) := randomSuffix w in
  let sessionId := "session_" +:+ pretty t +:+ "_" +:+ r in
  let (d, w) := dateNow w in
  let (start, w) := dateNow w in
  let sessionData :=
    {| s_id := Some sessionId;
       s_name := Some ("Session " +:+ toLocaleString host d);
       s_url := Some (href host);
       startTime := Some start;
       endTime := None;
       actions := [];
       s_settings := Some (settings (getState w));
       s_metadata := Some {| md_userAgent := userAgent host;
                             md_viewport := (innerWidth host, innerHeight host) |} |} in
  w ← setState [SetCurrentSession (Some sessionData)] w;
  Some (log LOG ("Enscriber: Initialized session " +:+ sessionId) w).

(** [RecordingEngine.startManualSelection]. *)
Definition startManualSelection (w : World) : option World :=
  w ← initializeSession w;
  w ← enableSelectionMode w;
  Some (with_engineRecording true (startMonitoring w)).

(** [RecordingEngine.startAutoRecording]. *)
Definition startAutoRecording (w : World) : option World :=
  w ← initializeSession w;
  w ← enableSelectionMode w;
  Some (with_engineRecording true (startMonitoring w)).

(** [RecordingEngine.pauseRecording]. *)
Definition pauseRecording (w : World) : World :=
  stopMonitoring (disableSelectionMode w).

(** [RecordingEngine.stopRecording]. *)
Definition stopRecording (w : World) : option World :=
  let w := with_engineRecording false (stopMonitoring (disableSelectionMode w)) in
  let currentState := getState w in
  match currentSession currentState with
  | Some session =>
      let (t, w) := dateNow w in
      let sessionData := withEndTime t session in
      let w := with_storage
                 (<[sessionKey sessionData := StoredSession sessionData]> (storage w)) w in
      let w := log LOG ("Enscriber: Session " +:+ default "undefined" (s_id sessionData)
                        +:+ " saved with " +:+ pretty (length (actions sessionData))
                        +:+ " actions") w in
      setState [SetCurrentSession (Some sessionData)] w
  | None => Some w
  end.

(** [RecordingEngine.handleModeChange]. *)
Definition handleModeChange (newMode prevMode : Mode) (w : World) : option World :=
  let w := log LOG ("Enscriber: Recording mode changed from " +:+ modeString prevMode
                    +:+ " to " +:+ modeString newMode) w in
  let w := with_engineMode newMode w in
  match newMode with
  | MANUAL_SELECTION => startManualSelection w
  | AUTO_RECORDING => startAutoRecording w
  | PAUSED => Some (pauseRecording w)
  | INACTIVE => stopRecording w
  end.

(** The callback registered by [RecordingEngine.setupStateListeners].
    The callbacks registered by UIManager redraw the panel; they read the
    state and do not write it.  What they print while they redraw (lines
    that start with [Enscriber UI:], and the errors of a failed redraw,
    which [notifyListeners] catches and prints) is not part of [console]
    below; they print no warning. *)
Definition recordingListener (newState prevState : State) (w : World) : option World :=
  if mode_eqb (mode newState) (mode prevState) then Some w
  else handleModeChange (mode newState) (mode prevState) w.

End Listener.

(** [StateManager.setState].  [fuel] bounds the nesting of re-entrant
    calls; [None] means that the bound was reached. *)
Fixpoint setStateN (fuel : nat) (updates : Updates) (w : World) : option World :=
  match fuel with
  | O => None
  | S fuel' =>
      let previousState := state w in
      let w := with_state (merge (state w) updates) w in
      w ← recordingListener (setStateN fuel') (state w) previousState w;
      Some (if autoSave (settings (state w)) then saveState w else w)
  end.

(** Three levels are the deepest nesting the listener produces:
    a change to auto_recording enables the selection mode, which sets
    manual_selection, which opens a session. *)
Definition setState : Updates -> World -> option World := setStateN 3.

(** What [setState] does by itself, apart from the listeners: the merge
    and the automatic save. *)
Definition commit (updates : Updates) (w : World) : World :=
  let w := with_state (merge (state w) updates) w in
  if autoSave (settings (state w)) then saveState w else w.

(** **** RecordingEngine.toggleRecording *)
Definition toggleRecording (w : World) : option World :=
  let currentState := getState w in
  match mode currentState with
  | INACTIVE => setState [SetMode MANUAL_SELECTION; SetIsRecording true] w
  | _ => setState [SetMode INACTIVE; SetIsRecording false] w
  end.

(** **** EnscribeCore *)

Definition setRecordingMode (modeName : string) (w : World) : option Outcome :=
  match parseMode modeName with
  | None => Some (Thrown ("Invalid recording mode: " +:+ modeName) w)
  | Some newMode =>
      let previousMode := mode (getState w) in
      w ← setState [SetMode newMode] w;
      let w := log LOG ("Enscriber: Mode changed from " +:+ modeString previousMode
                        +:+ " to " +:+ modeString newMode) w in
      Some (Returned (emit (ModeChanged previousMode newMode) w))
  end.

Definition saveSession (sessionData : Session) (w : World) : World :=
  let w := with_storage
             (<[sessionKey sessionData := StoredSession sessionData]> (storage w)) w in
  log LOG ("Enscriber: Session " +:+ default "undefined" (s_id sessionData) +:+ " saved") w.

(** Returns the session id together with the new world. *)
Definition startSession (name url : option string) (w : World) : option (string * World) :=
  let (sessionId, w) := generateId w in
  let (sessionName, w) :=
    match name with
    | Some (String c r) => (String c r, w)
    | _ => let (d, w) := dateNow w in ("Session " +:+ toLocaleString host d, w)
    end in
  let sessionUrl :=
    match url with
    | Some (String c r) => String c r
    | _ => href host
    end in
  let (start, w) := dateNow w in
  let sessionData :=
    {| s_id := Some sessionId;
       s_name := Some sessionName;
       s_url := Some sessionUrl;
       startTime := Some start;
       endTime := None;
       actions := [];
       s_settings := Some (settings (getState w));
       s_metadata := Some {| md_userAgent := userAgent host;
                             md_viewport := (innerWidth host, innerHeight host) |} |} in
  w ← setState [SetCurrentSession (Some sessionData); SetIsRecording true;
                SetMode AUTO_RECORDING] w;
  let w := log LOG ("Enscriber: Started session " +:+ sessionId) w in
  Some (sessionId, emit (SessionStarted sessionId sessionData) w).

Definition stopSession (w : World) : option World :=
  let state := getState w in
  match currentSession state with
  | None => Some (log WARN "Enscriber: No active session to stop" w)
  | Some session =>
      let (t, w) := dateNow w in
      let sessionData := withEndTime t session in
      let w := saveSession sessionData w in
      w ← setState [SetCurrentSession None; SetIsRecording false; SetMode INACTIVE] w;
      let w := log LOG ("Enscriber: Stopped session "
                        +:+ default "undefined" (s_id sessionData)) w in
      Some (emit (SessionStopped sessionData) w)
  end.

Definition pauseSession (w : World) : option World :=
  let state := getState w in
  if negb (isRecording state)
  then Some (log WARN "Enscriber: No active session to pause" w)
  else
    w ← setState [SetIsPaused true; SetMode PAUSED] w;
    Some (emit SessionPaused (log LOG "Enscriber: Session paused" w)).

Definition resumeSession (w : World) : option World :=
  let state := getState w in
  if negb (isPaused state)
  then Some (log WARN "Enscriber: No paused session to resume" w)
  else
    w ← setState [SetIsPaused false; SetMode AUTO_RECORDING] w;
    Some (emit SessionResumed (log LOG "Enscriber: Session resumed" w)).

(** [handleVisibilityChange], given [document.hidden]. *)
Definition handleVisibilityChange (hidden : bool) (w : World) : option World :=
  if hidden then
    let state := getState w in
    if isRecording state && negb (isPaused state) then pauseSession w else Some w
  else Some w.

(** **** UIManager: the record button and the clear button *)

Definition handleStartRecording (w : World) : option World :=
  match mode (getState w) with
  | INACTIVE => toggleRecording w
  | MANUAL_SELECTION | AUTO_RECORDING => toggleRecording w
  | PAUSED => setState [SetMode MANUAL_SELECTION; SetIsPaused false] w
  end.

(** [handleClearActions], given the answer to the confirmation dialog. *)
Definition handleClearActions (confirmed : bool) (w : World) : option World :=
  let state := getState w in
  match currentSession state with
  | Some session =>
      match actions session with
      | [] => Some w
      | _ =>
          if confirmed then
            w ← setState [SetCurrentSession (Some (withActions [] session))] w;
            w ← setState [SetNetworkRequests (Some [])] w;
            w ← setState [SetNetworkRequests (Some [])] (with_capturedRequests [] w);
            Some (log LOG "Enscriber: All actions and network requests cleared" w)
          else Some w
      end
  | None => Some w
  end.

(** **** ElementSelector: capture *)

(** [selectElement].  The action record is built key by key: the
    identifier and the time stamp are made before the value is read, so a
    read that throws leaves the clock and the generator advanced and the
    state untouched.  The text of the TypeError is the engine's. *)
Definition selectElement (l : Level) (parent : Ancestry) (actionType : string)
    (w : World) : option Outcome :=
  let element := l :: parent in
  let w := with_selected element w in
  let metadata := captureElementMetadata l parent in
  let detectedActionType := detectActionType (self l) actionType in
  let (actionId, w) := generateActionId w in
  let (stamp, w) := dateNow w in
  match getElementValue l detectedActionType with
  | None => Some (Thrown "TypeError" w)
  | Some value =>
      let actionRecord :=
        {| a_id := actionId;
           a_timestamp := stamp;
           a_type := detectedActionType;
           a_source := FromElement metadata value;
           a_notes := EmptyString;
           a_context := pageContext |} in
      let currentState := getState w in
      let currentSession := default emptySession (currentSession currentState) in
      let updatedActions := actions currentSession ++ [actionRecord] in
      let (selectedAt, w) := dateNow w in
      w ← setState
            [SetSelectedElement (Some {| se_element := element; se_metadata := metadata;
                                         se_timestamp := selectedAt |});
             SetCurrentSession (Some (withActions updatedActions currentSession))] w;
      Some (Returned (log LOG "Enscriber: Element selected and action recorded:" w))
  end.

(** [handleClick], given the root and the element under the cursor. *)
Definition handleClick (r : Root) (element : Ancestry) (w : World) : option Outcome :=
  if negb (isSelectionMode w) then Some (Returned w)
  else
    match element with
    | l :: parent =>
        if isExcludedElement r element then Some (Returned w)
        else selectElement l parent "click" w
    | [] => Some (Returned w)
    end.

(** **** NetworkRequestMonitor.addRequestToActions *)
Definition addRequestToActions (requestData : RequestData) (actionType : string)
    (w : World) : option World :=
  let currentState := getState w in
  let currentSession := default emptySession (currentSession currentState) in
  let (actionId, w) := generateId w in
  let (stamp, w) := dateNow w in
  let actionRecord :=
    {| a_id := actionId;
       a_timestamp := stamp;
       a_type := actionType;
       a_source := FromNetwork requestData;
       a_notes := r_method requestData +:+ " " +:+ r_url requestData;
       a_context := pageContext |} in
  let updatedActions := actions currentSession ++ [actionRecord] in
  w ← setState [SetCurrentSession (Some (withActions updatedActions currentSession))] w;
  Some (log LOG "Enscriber: Network request added to actions:" w).

(** **** The calls that the page, the panel and the user can make *)

Inductive Call :=
| ToggleRecording
| SetRecordingMode (modeName : string)
| StartSession (name url : option string)
| StopSession
| PauseSession
| ResumeSession
| VisibilityChange (hidden : bool)
| RecordButton
| ClearActions (confirmed : bool)
| Click (r : Root) (element : Ancestry)
| AddRequest (requestData : RequestData) (actionType : string).

Definition perform (c : Call) (w : World) : option World :=
  match c with
  | ToggleRecording => toggleRecording w
  | SetRecordingMode modeName =>
      match setRecordingMode modeName w with
      | Some (Returned w') => Some w'
      | Some (Thrown _ w') => Some w'
      | None => None
      end
  | StartSession name url =>
      match startSession name url w with
      | Some (_, w') => Some w'
      | None => None
      end
  | StopSession => stopSession w
  | PauseSession => pauseSession w
  | ResumeSession => resumeSession w
  | VisibilityChange hidden => handleVisibilityChange hidden w
  | RecordButton => handleStartRecording w
  | ClearActions confirmed => handleClearActions confirmed w
  | Click r element =>
      match handleClick r element w with
      | Some (Returned w') => Some w'
      | Some (Thrown _ w') => Some w'
      | None => None
      end
  | AddRequest requestData actionType => addRequestToActions requestData actionType w
  end.

Fixpoint run (calls : list Call) (w : World) : option World :=
  match calls with
  | [] => Some w
  | c :: rest =>
      match perform c w with
      | Some w' => run rest w'
      | None => None
      end
  end.

(** A clock that does not go back. *)
Definition monotone : Prop :=
  forall i j, i <= j -> (clock host i <= clock host j)%Z.

(** The start time of a session was read from the clock before the
    [n]-th reading. *)
Definition startedBefore (n : nat) (s : Session) : Prop :=
  forall t0, startTime s = Some t0 -> exists k, k < n /\ t0 = clock host k.

Definition sessionStarted (w : World) : Prop :=
  forall s, currentSession (state w) = Some s -> startedBefore (ticks w) s.

End Script.

(** The warnings written to the console so far. *)
Definition warnings (w : World) : list string :=
  omap (fun entry : Severity * string =>
          match entry.1 with WARN => Some entry.2 | _ => None end) (console w).

(** *** Properties of callbacks, used to reason about re-entrant calls *)

(** A callback that acts as [setState] on updates that keep the mode. *)
Definition Quiet (ss : Updates -> World -> option World) : Prop :=
  forall u w, mode (merge (state w) u) = mode (state w) -> ss u w = Some (commit u w).

(** The keys that no listener writes. *)
Definition keeps (s s' : State) : Prop :=
  isRecording s = isRecording s' /\ isPaused s = isPaused s' /\ ui s = ui s' /\
  settings s = settings s' /\ selectedElement s = selectedElement s' /\
  networkRequests s = networkRequests s'.

Definition Framed (ss : Updates -> World -> option World) : Prop :=
  forall u w w', ss u w = Some w' -> keeps (merge (state w) u) (state w').

(** A callback under which the clock counter does not go back and the
  current session keeps a start time read from the clock. *)
Definition Timed (host : Host) (ss : Updates -> World -> option World) : Prop :=
  forall u w w', ss u w = Some w' ->
    ticks w <= ticks w' /\
    (sessionStarted host w ->
     (forall s, SetCurrentSession (Some s) ∈ u -> startedBefore host (ticks w) s) ->
     sessionStarted host w').

(** *** The state after the constructors have run *)

Definition initialState : State :=
  {| mode := INACTIVE;
     isRecording := false;
     isPaused := false;
     currentSession := None;
     ui := {| panelVisible := false; panelPosition := (20, 20)%Z;
              panelSize := (400, 500)%Z; isCollapsed := false;
              isDragging := false; isResizing := false |};
     settings := {| autoSave := true; highlightElements := true;
                    showTooltips := true; recordingMode := "auto" |};
     selectedElement := None;
     networkRequests := None |}.

Definition initialWorld : World :=
  {| state := initialState; isSelectionMode := false; selected := [];
     engineMode := INACTIVE; engineRecording := false; isMonitoring := false;
     capturedRequests := []; storage := ∅; console := []; emitted := [];
     ticks := 0; draws := 0 |}.

(** A world as [EnscribeCore.initialize] leaves it.  The panel state, the
    settings and the store may come from an earlier page load. *)
Definition initialized (w : World) : Prop :=
  mode (state w) = INACTIVE /\ isRecording (state w) = false /\
  isPaused (state w) = false /\ currentSession (state w) = None /\
  selectedElement (state w) = None /\
  isSelectionMode w = false /\ engineMode w = INACTIVE /\
  engineRecording w = false /\ isMonitoring w = false.

(** The worlds that a sequence of calls reaches after initialization. *)
Definition reachable (host : Host) (w : World) : Prop :=
  exists w0 calls, initialized w0 /\ run host calls w0 = Some w.

(** *** Further handlers of the script *)

(** A session as [RecordingEngine.initializeSession] makes it. *)
Definition opened (host : Host) (w : World) : Prop :=
  exists (sd : Session) (t : Z) (r : string) (d : Z),
    currentSession (state w) = Some sd /\
    s_id sd = Some ("session_" +:+ pretty t +:+ "_" +:+ r) /\
    s_name sd = Some ("Session " +:+ toLocaleString host d) /\
    s_url sd = Some (href host) /\
    actions sd = [] /\ endTime sd = None.

(** [ElementSelector.handleKeyDown], given [event.key]. *)
Definition handleKeyDown (key : string) (w : World) : World :=
  if negb (isSelectionMode w) then w
  else if String.eqb key "Escape" then disableSelectionMode w else w.

(** [EnscribeCore.handleBeforeUnload]. *)
Definition handleBeforeUnload (host : Host) (w : World) : World :=
  let state := getState w in
  match currentSession state with
  | Some session =>
      let (t, w) := dateNow host w in
      saveSession (withEndTime t session) w
  | None => w
  end.

(** [array.filter((_, index) => keep(index))], from the index [index] on. *)
Fixpoint filterFrom {A} (keep : nat -> bool) (index : nat) (l : list A) : list A :=
  match l with
  | [] => []
  | a :: rest =>
      if keep index then a :: filterFrom keep (S index) rest
      else filterFrom keep (S index) rest
  end.

(** [UIManager.deleteAction], given the answer to the confirmation dialog. *)
Definition deleteAction (host : Host) (actionIndex : nat) (confirmed : bool) (w : World)
    : option World :=
  let state := getState w in
  match currentSession state with
  | None => Some w
  | Some session =>
      if (length (actions session) <=? actionIndex)%nat then Some w
      else if confirmed then
        let updatedActions :=
          filterFrom (fun index => negb (index =? actionIndex)%nat) 0 (actions session) in
        setState host [SetCurrentSession (Some (withActions updatedActions session))] w
      else Some w
  end.

End Recorder.

(** ** The state object as the interpreter holds it

    [StateManager.getState] and [StateManager.setState] build new objects
    with the spread operator.  This module keeps objects in a store, so
    that a copy and the object it was copied from can be told apart. *)

Module ObjectStore.

Definition Loc := nat.

Inductive JVal :=
| JUndefined
| JNull
| JBool (b : bool)
| JNum (n : Z)
| JStr (s : string)
| JRef (l : Loc).

(** The store: the own properties of every object. *)
Record Manager := {
  heap : gmap Loc (gmap string JVal);
  stateRef : Loc    (* this.state *)
}.

Definition properties (m : Manager) (l : Loc) : gmap string JVal :=
  default ∅ (heap m !! l).

Definition alloc (o : gmap string JVal) (m : Manager) : Loc * Manager :=
  let l := fresh (dom (heap m)) in
  (l, {| heap := <[l := o]> (heap m); stateRef := stateRef m |}).

(** [return { ...this.state }]. *)
Definition getState (m : Manager) : Loc * Manager :=
  alloc (properties m (stateRef m)) m.

(** [object.key = v]. *)
Definition assignProperty (l : Loc) (key : string) (v : JVal) (m : Manager) : Manager :=
  {| heap := <[l := <[key := v]> (properties m l)]> (heap m); stateRef := stateRef m |}.

(** The first two statements of [setState]:
    [previousState = { ...this.state }] and
    [this.state = { ...this.state, ...updates }].
    Returns [previousState]. *)
Definition setState (updates : Loc) (m : Manager) : Loc * Manager :=
  let (previousState, m) := alloc (properties m (stateRef m)) m in
  let (newState, m) := alloc (properties m updates ∪ properties m (stateRef m)) m in
  (previousState, {| heap := heap m; stateRef := newState |}).

End ObjectStore.

(** ** The specification's wording, for comparison with the script *)

Module Spec.
Import Capture.

(** The id of the nearest ancestor that has one. *)
Fixpoint nearestAnchor (ancestors : Ancestry) : option string :=
  match ancestors with
  | [] => None
  | l :: up => if JS.truthy (id (self l)) then Some (id (self l)) else nearestAnchor up
  end.

(** The XPath strategy as the specification words it: anchored at the
    nearest ancestor with an id when there is one, so the path names that
    id; positional from the root otherwise. *)
Definition xpathAsSpecified (element : Ancestry) (xp : string) : Prop :=
  match element with
  | [] => True
  | _ :: ancestors =>
      match nearestAnchor ancestors with
      | Some anchorId => JS.includes anchorId xp = true
      | None => xp = "/" +:+ JS.join "/" (map XPath.part (rev element))
      end
  end.





End Spec.

(** ** A sample page *)

Module Sample.
Import Capture Recorder.

Definition element (tag ident : string) (attrs : list (string * string)) : ElementData :=
  {| tagName := tag; id := ident; className := ClassString EmptyString;
     attributes := attrs; type := EmptyString; value := EmptyString;
     placeholder := EmptyString; checked := false; selectedOptions := None |}.

Definition textInput : ElementData :=
  {| tagName := "INPUT"; id := EmptyString; className := ClassString EmptyString;
     attributes := []; type := "text"; value := EmptyString;
     placeholder := "Your name"; checked := false; selectedOptions := None |}.

(** The children of the division [main]. *)
Definition mainChildren : list Node :=
  [ Elem (element "SPAN" EmptyString []) [Text "a"];
    Text "b";
    Elem (element "P" EmptyString []) [];
    Elem (element "SPAN" EmptyString []) [Text " hello  "] ].



(** html > (head, body > (div#main > (span, p, span), button, button, input, div)) *)
Definition page : Tree :=
  {| root := RDocument;
     top :=
       [ Comment "doctype";
         Elem (element "HTML" EmptyString [])
           [ Elem (element "HEAD" EmptyString []) [];
             Text " ";
             Elem (element "BODY" EmptyString [])
               [ Elem (element "DIV" "main" []) mainChildren;
                 Elem (element "BUTTON" EmptyString [("data-testid", "submit-btn")])
                   [Text "Submit"];
                 Elem (element "BUTTON" "save" [("data-testid", "save-btn")])
                   [Text "Save"];
                 Elem textInput [];
                 Elem (element "DIV" "enscriber-highlight-overlay" []) [] ] ] ] |}.

Definition secondSpan : Ancestry := ancestry page [1; 2; 0; 3].
Definition saveButton : Ancestry := ancestry page [1; 2; 2].
Definition nameInput : Ancestry := ancestry page [1; 2; 3].
Definition overlay : Ancestry := ancestry page [1; 2; 4].

Definition host : Host :=
  {| clock := fun n => (1000 + Z.of_nat n)%Z;
     random := fun n => "r" +:+ pretty n;
     toLocaleString := fun t => pretty t;
     href := "https://example.test/";
     title := "Example";
     innerWidth := 1280;
     innerHeight := 720;
     userAgent := "agent" |}.


(** The world after [startSession] has been called on the initial world. *)
Definition recordingWorld : World :=
  match startSession host None None initialWorld with
  | Some (_, w) => w
  | None => initialWorld
  end.

(** A store with a state object at 0, whose [ui] is the object at 1, and
    an updates object at 2. *)
Definition manager : ObjectStore.Manager :=
  {| ObjectStore.heap :=
       {[ 0 := {[ "mode" := ObjectStore.JStr "inactive"; "ui" := ObjectStore.JRef 1 ]};
          1 := {[ "panelVisible" := ObjectStore.JBool false ]};
          2 := {[ "mode" := ObjectStore.JStr "paused" ]} ]};
     ObjectStore.stateRef := 0 |}.



(** The world after a click on the second span while a session is being
    recorded. *)
Definition capturedWorld : World :=
  match handleClick host RDocument secondSpan recordingWorld with
  | Some o => worldOf o
  | None => recordingWorld
  end.

(** An element named [select] in a namespace other than that of HTML, as
    [document.createElementNS] makes it: the tag name keeps its case and
    the element has no [selectedOptions].  It is the only child of the body
    of a page. *)
Definition foreignSelect : ElementData :=
  {| tagName := "select"; id := EmptyString; className := ClassString EmptyString;
     attributes := []; type := EmptyString; value := EmptyString;
     placeholder := EmptyString; checked := false; selectedOptions := None |}.

Definition foreignSelectLevel : Level :=
  {| before := []; self := foreignSelect; children := [] |}.

Definition foreignSelectParents : Ancestry :=
  [ {| before := [Elem (element "HEAD" EmptyString []) []];
       self := element "BODY" EmptyString [];
       children := [Elem foreignSelect []] |};
    {| before := [];
       self := element "HTML" EmptyString [];
       children := [ Elem (element "HEAD" EmptyString []) [];
                     Elem (element "BODY" EmptyString []) [Elem foreignSelect []] ] |} ].

(** The message that [showActionConfirmation] appends to the body after a
    capture: a division with a style, without id and without class name.
    [style] is the style attribute as the browser holds it, [text] the
    text of the message and [pageNodes] the children that the body of the
    page had before. *)
Definition confirmationNode (style text : string) : Node :=
  Elem (element "DIV" EmptyString [("style", style)]) [Text text].

Definition confirmationLevel (style text : string) (pageNodes : list Node) : Level :=
  {| before := pageNodes;
     self := element "DIV" EmptyString [("style", style)];
     children := [Text text] |}.

Definition confirmationParents (style text : string) (pageNodes : list Node) : Ancestry :=
  [ {| before := [Elem (element "HEAD" EmptyString []) []];
       self := element "BODY" EmptyString [];
       children := pageNodes ++ [confirmationNode style text] |};
    {| before := [];
       self := element "HTML" EmptyString [];
       children := [ Elem (element "HEAD" EmptyString []) [];
                     Elem (element "BODY" EmptyString [])
                       (pageNodes ++ [confirmationNode style text]) ] |} ].

Definition request : RequestData :=
  {| r_id := "enscriber_1_r"; r_timestamp := 1; r_method := "GET";
     r_url := "https://example.test/api"; r_status := Some 200%Z |}.

End Sample.

(** * Properties *)

(** ** Facts about the string primitives *)

Module JSFacts.
Import JS.

Lemma truthy_true (s : string) : truthy s = true <-> s <> EmptyString.
Proof. destruct s; simpl; split; congruence. Qed.

Lemma truthy_false (s : string) : truthy s = false <-> s = EmptyString.
Proof. destruct s; simpl; split; congruence. Qed.

Lemma substring0_length (n : nat) (s : string) :
  String.length (substring0 n s) <= n.
Proof.
  unfold substring0. revert n.
  induction s as [|c r IH]; intros [|n]; simpl; try lia.
  specialize (IH n). lia.
Qed.

Lemma substring0_short (n : nat) (s : string) :
  String.length s <= n -> substring0 n s = s.
Proof.
  unfold substring0. revert n.
  induction s as [|c r IH]; intros [|n]; simpl; intros H; try reflexivity; try lia.
  f_equal. apply IH. lia.
Qed.


Lemma append_cons (c : ascii) (a b : string) :
  String c a +:+ b = String c (a +:+ b).
Proof. reflexivity. Qed.
















End JSFacts.

(** ** Facts about generateXPath *)

Module XPathFacts.
Import XPath.

Lemma countPreceding_spec (tag : string) (sibs : list Node) (index : nat) :
  countPreceding tag sibs index = index + countSame tag sibs.
Proof.
  revert index.
  induction sibs as [|n rest IH]; intros index; simpl; [lia|].
  destruct n as [e cs| |]; simpl; rewrite IH; [|lia|lia].
  destruct (String.eqb (tagName e) tag); lia.
Qed.

Lemma countSame_app (tag : string) (xs ys : list Node) :
  countSame tag (xs ++ ys) = countSame tag xs + countSame tag ys.
Proof. induction xs as [|x xs IH]; simpl; [reflexivity|]. rewrite IH. lia. Qed.

Lemma countSame_rev (tag : string) (xs : list Node) :
  countSame tag (rev xs) = countSame tag xs.
Proof.
  induction xs as [|x xs IH]; simpl; [reflexivity|].
  rewrite countSame_app, IH. simpl. lia.
Qed.

(** The index is one more than the number of preceding siblings that are
    elements with the same tag name. *)
Lemma siblingIndex_spec (l : Level) :
  siblingIndex l = 1 + countSame (tagName (self l)) (before l).
Proof. unfold siblingIndex. rewrite countPreceding_spec, countSame_rev. reflexivity. Qed.




Lemma walk_spec (current : Ancestry) (parts : list string) :
  walk current parts = map part (rev current) ++ parts.
Proof.
  revert parts.
  induction current as [|l parent IH]; intros parts; simpl; [reflexivity|].
  rewrite IH, map_app, <- app_assoc. reflexivity.
Qed.






Import JS JSFacts.











End XPathFacts.

(** ** Facts about the capture filter and the classification *)

Module CaptureFacts.
Import Capture.

Lemma includes_truthy (needle hay : string) :
  needle <> EmptyString -> JS.includes needle hay = true -> JS.truthy hay = true.
Proof.
  intros Hne H. destruct hay; [|reflexivity].
  simpl in H. destruct needle; [congruence|discriminate].
Qed.

(** The ancestor walk stops with [true] at an element that carries the
    namespace in its id or in its class name, and everywhere under the
    shadow root of the panel. *)
Lemma ancestorWalk_elem_of (r : Root) (element : Ancestry) (l : Level) :
  l ∈ element -> marked r (self l) = true -> ancestorWalk r element = true.
Proof.
  intros Hin Hm. induction element as [|a rest IH]; [inversion Hin|].
  simpl. apply elem_of_cons in Hin as [<-|Hin].
  - rewrite Hm. reflexivity.
  - rewrite (IH Hin). destruct (marked r (self a)); reflexivity.
Qed.

Lemma marked_by_id (r : Root) (e : ElementData) :
  JS.includes namespace (id e) = true -> marked r e = true.
Proof.
  intros H. unfold marked.
  rewrite (includes_truthy namespace (id e)), H; [reflexivity|discriminate|exact H].
Qed.

Lemma marked_by_class (r : Root) (e : ElementData) (s : string) :
  className e = ClassString s -> JS.includes namespace s = true -> marked r e = true.
Proof.
  intros Hc H. unfold marked. rewrite Hc.
  rewrite (includes_truthy namespace s), H; [|discriminate|exact H].
  destruct (JS.truthy (id e) && JS.includes namespace (id e)); reflexivity.
Qed.

Lemma marked_in_panel (e : ElementData) : marked (RShadow panelId) e = true.
Proof.
  unfold marked.
  destruct (JS.truthy (id e) && JS.includes namespace (id e)); [reflexivity|].
  destruct (match className e with
            | ClassString s => JS.truthy s && JS.includes namespace s
            | ClassAnimated _ => false
            end); [reflexivity|].
  destruct (String.eqb (id e) panelId); reflexivity.
Qed.



Lemma existsb_eqb_elem_of (x : string) (l : list string) :
  existsb (String.eqb x) l = true <-> x ∈ l.
Proof.
  induction l as [|y l IH]; simpl.
  - split; [discriminate|]. intros H. inversion H.
  - rewrite orb_true_iff, IH, elem_of_cons, String.eqb_eq. reflexivity.
Qed.

Lemma existsb_eqb_not_elem_of (x : string) (l : list string) :
  x ∉ l -> existsb (String.eqb x) l = false.
Proof.
  intros H. destruct (existsb (String.eqb x) l) eqn:E; [|reflexivity].
  apply existsb_eqb_elem_of in E. contradiction.
Qed.

Lemma toLowerCase_truthy (s : string) :
  (if JS.truthy s then JS.toLowerCase s else EmptyString) = JS.toLowerCase s.
Proof. destruct s; reflexivity. Qed.

Lemma value_or_placeholder (e : ElementData) :
  (if JS.truthy (value e) then value e
   else if JS.truthy (placeholder e) then placeholder e else EmptyString) =
  (if JS.truthy (value e) then value e else placeholder e).
Proof. destruct (value e); simpl; [|reflexivity]. destruct (placeholder e); reflexivity. Qed.

Lemma trimmed_text (n : nat) (text : string) :
  (if JS.truthy text then JS.substring0 n (JS.trim text) else EmptyString) =
  JS.substring0 n (JS.trim text).
Proof. destruct text; [|reflexivity]. destruct n; reflexivity. Qed.

(** The action type detected for a click, by cases on the lower-cased tag
    name and input type. *)
Lemma detectActionType_click (e : ElementData) :
  detectActionType e "click" =
    let tag := JS.toLowerCase (tagName e) in
    let inputType := JS.toLowerCase (type e) in
    if String.eqb tag "input" then
      if existsb (String.eqb inputType) textTypes then "input"
      else if existsb (String.eqb inputType) checkTypes then "check"
      else "click"
    else if String.eqb tag "textarea" then "input"
    else if String.eqb tag "select" then "select"
    else "click".
Proof.
  unfold detectActionType. rewrite toLowerCase_truthy. reflexivity.
Qed.

(** The table that the classification follows.  It throws in one case
    only: the tag name is [select] and the element has no
    [selectedOptions]. *)
Lemma classify_table (l : Level) :
  let e := self l in
  let tag := JS.toLowerCase (tagName e) in
  let inputType := JS.toLowerCase (type e) in
  let text := textContent (node_of l) in
  (tag = "input" -> inputType ∈ textTypes ->
     classify l = Some ("input", if JS.truthy (value e) then value e else placeholder e)) /\
  (tag = "input" -> inputType ∈ checkTypes ->
     classify l = Some ("check", if checked e then "checked" else "unchecked")) /\
  (tag = "select" ->
     classify l =
       match selectedOptions e with
       | Some (o :: _) => Some ("select", o)
       | Some [] => Some ("select", EmptyString)
       | None => None
       end) /\
  (tag = "textarea" ->
     classify l = Some ("input", if JS.truthy (value e) then value e else placeholder e)) /\
  (tag <> "textarea" -> tag <> "select" ->
   tag <> "input" \/ ((inputType ∉ textTypes) /\ (inputType ∉ checkTypes)) ->
     classify l = Some ("click", JS.substring0 50 (JS.trim text))).
Proof.
  cbv zeta.
  split; [|split; [|split; [|split]]];
    unfold classify; rewrite detectActionType_click; cbv zeta.
  - intros -> Hty. apply existsb_eqb_elem_of in Hty. rewrite Hty. simpl.
    unfold getElementValue. simpl. rewrite value_or_placeholder. reflexivity.
  - intros -> Hty.
    assert (Hno : existsb (String.eqb (JS.toLowerCase (type (self l)))) textTypes = false).
    { unfold checkTypes in Hty.
      repeat (apply elem_of_cons in Hty as [->|Hty]); try reflexivity. inversion Hty. }
    apply existsb_eqb_elem_of in Hty. rewrite Hno, Hty. reflexivity.
  - intros ->. simpl. unfold getElementValue. simpl.
    destruct (selectedOptions (self l)) as [[|o os]|]; reflexivity.
  - intros ->. simpl. unfold getElementValue. simpl.
    rewrite value_or_placeholder. reflexivity.
  - intros Hta Hsel Hin.
    assert (E : (if String.eqb (JS.toLowerCase (tagName (self l))) "input"
                 then if existsb (String.eqb (JS.toLowerCase (type (self l)))) textTypes
                      then "input"
                      else if existsb (String.eqb (JS.toLowerCase (type (self l)))) checkTypes
                           then "check" else "click"
                 else if String.eqb (JS.toLowerCase (tagName (self l))) "textarea"
                      then "input"
                      else if String.eqb (JS.toLowerCase (tagName (self l))) "select"
                           then "select" else "click") = "click").
    { apply String.eqb_neq in Hta, Hsel. rewrite Hta, Hsel.
      destruct Hin as [Hin|[H1 H2]].
      - apply String.eqb_neq in Hin. rewrite Hin. reflexivity.
      - rewrite (existsb_eqb_not_elem_of _ _ H1), (existsb_eqb_not_elem_of _ _ H2).
        destruct (String.eqb _ "input"); reflexivity. }
    rewrite E. unfold getElementValue. simpl.
    rewrite trimmed_text. reflexivity.
Qed.

End CaptureFacts.

(** ** Facts about the recording state *)

Module RecorderFacts.
Import Capture Recorder.

(** Reduces projections of rebuilt worlds and the option monad, and leaves
    the storage map and the strings alone. *)
Ltac wsimpl :=
  cbn [state isSelectionMode selected engineMode engineRecording isMonitoring
       capturedRequests storage console emitted ticks draws
       with_state with_isSelectionMode with_selected with_engineMode
       with_engineRecording with_isMonitoring with_capturedRequests with_storage
       with_console with_emitted with_ticks with_draws
       log emit dateNow randomSuffix generateId generateActionId getState saveState
       saveSession
       mode isRecording isPaused currentSession ui settings selectedElement networkRequests
       merge fold_left assign
       mbind option_bind mret option_ret fst snd default from_option
       negb andb] in *.

Section Facts.
Context (host : Host).

Lemma mode_eqb_refl m : mode_eqb m m = true.
Proof. by destruct m. Qed.

Lemma mode_eqb_eq a b : mode_eqb a b = true <-> a = b.
Proof. destruct a, b; simpl; split; congruence. Qed.

Lemma mode_eqb_neq a b : a <> b -> mode_eqb a b = false.
Proof. destruct a, b; simpl; congruence. Qed.

Lemma setStateN_S f u w :
  setStateN host (S f) u w =
    recordingListener host (setStateN host f)
      (merge (state w) u) (state w) (with_state (merge (state w) u) w)
    ≫= (λ w', Some (if autoSave (settings (state w')) then saveState w' else w')).
Proof. reflexivity. Qed.

Lemma setStateN_quiet f : Quiet (setStateN host (S f)).
Proof.
  intros u w H. rewrite setStateN_S. unfold recordingListener.
  rewrite H, mode_eqb_refl. reflexivity.
Qed.

Lemma keeps_refl s : keeps s s.
Proof. repeat split. Qed.

Lemma keeps_trans a b c : keeps a b -> keeps b c -> keeps a c.
Proof. unfold keeps. intuition congruence. Qed.

Lemma state_commit u w : state (commit u w) = merge (state w) u.
Proof. unfold commit. wsimpl. destruct (autoSave _); reflexivity. Qed.

Lemma state_disableSelectionMode w : state (disableSelectionMode w) = state w.
Proof. unfold disableSelectionMode. destruct (isSelectionMode w); reflexivity. Qed.

Lemma state_stopMonitoring w : state (stopMonitoring w) = state w.
Proof. unfold stopMonitoring. destruct (isMonitoring w); reflexivity. Qed.

Lemma state_startMonitoring w : state (startMonitoring w) = state w.
Proof. unfold startMonitoring. destruct (isMonitoring w); reflexivity. Qed.

Lemma bind_Some {A B} (m : option A) (k : A -> option B) (b : B) :
  m ≫= k = Some b -> exists a, m = Some a /\ k a = Some b.
Proof. destruct m; simpl; [eauto|discriminate]. Qed.

Lemma initializeSession_framed ss w w' :
  Framed ss -> initializeSession host ss w = Some w' -> keeps (state w) (state w').
Proof.
  intros F H. unfold initializeSession in H. wsimpl.
  apply bind_Some in H as (w1 & H1 & H2). injection H2 as <-.
  apply F in H1. wsimpl. exact H1.
Qed.

Lemma enableSelectionMode_framed ss w w' :
  Framed ss -> enableSelectionMode ss w = Some w' -> keeps (state w) (state w').
Proof.
  intros F H. unfold enableSelectionMode in H.
  destruct (isSelectionMode w).
  - injection H as <-. apply keeps_refl.
  - apply bind_Some in H as (w1 & H1 & H2). injection H2 as <-.
    apply F in H1. wsimpl. exact H1.
Qed.

Lemma startManualSelection_framed ss w w' :
  Framed ss -> startManualSelection host ss w = Some w' -> keeps (state w) (state w').
Proof.
  intros F H. unfold startManualSelection in H.
  apply bind_Some in H as (w1 & H1 & H).
  apply bind_Some in H as (w2 & H2 & H). injection H as <-.
  wsimpl. rewrite state_startMonitoring.
  eapply keeps_trans; [eapply initializeSession_framed|eapply enableSelectionMode_framed]; eauto.
Qed.

Lemma stopRecording_framed ss w w' :
  Framed ss -> stopRecording host ss w = Some w' -> keeps (state w) (state w').
Proof.
  intros F H. unfold stopRecording in H. wsimpl.
  rewrite state_stopMonitoring, state_disableSelectionMode in H.
  destruct (currentSession (state w)) as [s|].
  - apply F in H. wsimpl. rewrite state_stopMonitoring, state_disableSelectionMode in H. exact H.
  - injection H as <-. wsimpl. rewrite state_stopMonitoring, state_disableSelectionMode. apply keeps_refl.
Qed.

Lemma handleModeChange_framed ss m p w w' :
  Framed ss -> handleModeChange host ss m p w = Some w' -> keeps (state w) (state w').
Proof.
  intros F H. unfold handleModeChange in H. destruct m.
  - apply stopRecording_framed in H; auto.
  - apply startManualSelection_framed in H; auto.
  - apply startManualSelection_framed in H; auto.
  - injection H as <-. unfold pauseRecording.
    rewrite state_stopMonitoring, state_disableSelectionMode. apply keeps_refl.
Qed.

Lemma setStateN_framed fuel : Framed (setStateN host fuel).
Proof.
  induction fuel as [|f IH]; intros u w w' H; [discriminate|].
  rewrite setStateN_S in H.
  apply bind_Some in H as (w1 & H1 & H). injection H as <-.
  assert (keeps (merge (state w) u) (state w1)) as K.
  { unfold recordingListener in H1. destruct (mode_eqb _ _).
    - injection H1 as <-. apply keeps_refl.
    - apply handleModeChange_framed in H1; auto. }
  destruct (autoSave _); exact K.
Qed.

Lemma sessionKey_ne_settings sd : "settings" <> sessionKey sd.
Proof. unfold sessionKey. simpl. discriminate. Qed.

Lemma storage_commit_session u w sd :
  storage (commit u w) !! sessionKey sd = storage w !! sessionKey sd.
Proof.
  unfold commit. wsimpl. destruct (autoSave _); wsimpl; [|reflexivity].
  apply lookup_insert_ne, sessionKey_ne_settings.
Qed.

Lemma initializeSession_total ss w :
  Quiet ss -> exists w', initializeSession host ss w = Some w' /\
    isSelectionMode w' = isSelectionMode w.
Proof.
  intros Q. unfold initializeSession. wsimpl.
  rewrite Q by reflexivity. wsimpl. eexists. split; [reflexivity|].
  unfold commit. wsimpl. destruct (autoSave _); reflexivity.
Qed.

Lemma isSelectionMode_startMonitoring w :
  isSelectionMode (startMonitoring w) = isSelectionMode w.
Proof. unfold startMonitoring. destruct (isMonitoring w); reflexivity. Qed.

Lemma startManualSelection_selecting ss w :
  Quiet ss -> isSelectionMode w = true ->
  exists w', startManualSelection host ss w = Some w' /\ isSelectionMode w' = true.
Proof.
  intros Q Hsel. unfold startManualSelection.
  destruct (initializeSession_total ss w Q) as (w1 & -> & H1). wsimpl.
  unfold enableSelectionMode. rewrite H1, Hsel. wsimpl.
  eexists. split; [reflexivity|]. wsimpl.
  rewrite isSelectionMode_startMonitoring. congruence.
Qed.

Lemma enableSelectionMode_total f w :
  exists w', enableSelectionMode (setStateN host (S (S f))) w = Some w' /\
    isSelectionMode w' = true.
Proof.
  unfold enableSelectionMode. destruct (isSelectionMode w) eqn:Hsel; [eauto|].
  rewrite setStateN_S. unfold recordingListener.
  destruct (mode_eqb _ _).
  - wsimpl. eexists. split; [reflexivity|]. destruct (autoSave _); reflexivity.
  - unfold handleModeChange.
    match goal with
    | |- context [startManualSelection host ?ss ?x] =>
        destruct (startManualSelection_selecting ss x) as (w1 & -> & H1);
          [apply setStateN_quiet|reflexivity|]
    end.
    wsimpl. eexists. split; [reflexivity|]. destruct (autoSave _); wsimpl; exact H1.
Qed.

Lemma stopRecording_spec ss w :
  Quiet ss ->
  exists w', stopRecording host ss w = Some w' /\
    mode (state w') = mode (state w) /\ keeps (state w) (state w') /\
    isSelectionMode w' = false /\ isMonitoring w' = false /\ engineRecording w' = false /\
    match currentSession (state w) with
    | Some s =>
        let sessionData := withEndTime (clock host (ticks w)) s in
        currentSession (state w') = Some sessionData /\
        storage w' !! sessionKey sessionData = Some (StoredSession sessionData)
    | None => state w' = state w /\ storage w' = storage w
    end.
Proof.
  intros Q. unfold stopRecording.
  unfold disableSelectionMode, stopMonitoring.
  destruct (isSelectionMode w) eqn:Hsel, (isMonitoring w) eqn:Hmon; wsimpl;
    rewrite ?Hsel, ?Hmon;
    (destruct (currentSession (state w)) as [s|] eqn:Hcs; wsimpl; rewrite ?Hcs;
     [ rewrite Q by reflexivity; eexists; split; [reflexivity|];
       rewrite !state_commit, storage_commit_session; unfold commit; wsimpl;
       repeat split; try (destruct (autoSave _); wsimpl; solve [auto]);
       apply lookup_insert_eq
     | eexists; split; [reflexivity|]; wsimpl; rewrite ?Hcs; repeat split; auto ]).
Qed.

Lemma handleModeChange_total f m p w :
  exists w', handleModeChange host (setStateN host (S (S f))) m p w = Some w'.
Proof.
  unfold handleModeChange. destruct m.
  - match goal with
    | |- context [stopRecording host ?ss ?x] =>
        destruct (stopRecording_spec ss x) as (w' & -> & _); [apply setStateN_quiet|eauto]
    end.
  - unfold startAutoRecording.
    match goal with
    | |- context [initializeSession host ?ss ?x] =>
        destruct (initializeSession_total ss x) as (w1 & -> & _); [apply setStateN_quiet|]
    end.
    wsimpl. destruct (enableSelectionMode_total f w1) as (w2 & -> & _). wsimpl. eauto.
  - unfold startManualSelection.
    match goal with
    | |- context [initializeSession host ?ss ?x] =>
        destruct (initializeSession_total ss x) as (w1 & -> & _); [apply setStateN_quiet|]
    end.
    wsimpl. destruct (enableSelectionMode_total f w1) as (w2 & -> & _). wsimpl. eauto.
  - eauto.
Qed.

Lemma setStateN_total f u w : exists w', setStateN host (S (S (S f))) u w = Some w'.
Proof.
  rewrite setStateN_S. unfold recordingListener. destruct (mode_eqb _ _).
  - wsimpl. eauto.
  - match goal with
    | |- context [handleModeChange host _ ?m ?p ?x] =>
        destruct (handleModeChange_total f m p x) as (w1 & ->)
    end. wsimpl. eauto.
Qed.
Lemma state_autosave (w : World) :
  state (if autoSave (settings (state w)) then saveState w else w) = state w.
Proof. destruct (autoSave _); reflexivity. Qed.

Lemma storage_autosave_session (w : World) (sd : Session) :
  storage (if autoSave (settings (state w)) then saveState w else w) !! sessionKey sd =
  storage w !! sessionKey sd.
Proof.
  destruct (autoSave _); [|reflexivity]. unfold saveState. wsimpl.
  apply lookup_insert_ne, sessionKey_ne_settings.
Qed.

Lemma isSelectionMode_autosave (w : World) :
  isSelectionMode (if autoSave (settings (state w)) then saveState w else w) =
  isSelectionMode w.
Proof. destruct (autoSave _); reflexivity. Qed.

Lemma isMonitoring_autosave (w : World) :
  isMonitoring (if autoSave (settings (state w)) then saveState w else w) =
  isMonitoring w.
Proof. destruct (autoSave _); reflexivity. Qed.

Lemma setState_quiet : Quiet (setState host).
Proof. apply setStateN_quiet. Qed.

(** Stopping through the recording engine. *)
Lemma toggleRecording_stop (w : World) :
  mode (state w) <> INACTIVE ->
  exists w', toggleRecording host w = Some w' /\
    mode (state w') = INACTIVE /\ isRecording (state w') = false /\
    isSelectionMode w' = false /\ isMonitoring w' = false /\
    match currentSession (state w) with
    | Some s =>
        let sessionData := withEndTime (clock host (ticks w)) s in
        currentSession (state w') = Some sessionData /\
        storage w' !! sessionKey sessionData = Some (StoredSession sessionData)
    | None => currentSession (state w') = None
    end.
Proof.
  intros Hm. unfold toggleRecording, getState, setState.
  assert (E : setStateN host 3 [SetMode INACTIVE; SetIsRecording false] w =
              match mode (state w) with
              | INACTIVE => setStateN host 3 [SetMode MANUAL_SELECTION; SetIsRecording true] w
              | _ => setStateN host 3 [SetMode INACTIVE; SetIsRecording false] w
              end) by (destruct (mode (state w)) eqn:E; [contradiction|reflexivity..]).
  rewrite <- E. clear E.
  rewrite setStateN_S. unfold recordingListener. wsimpl.
  rewrite (mode_eqb_neq INACTIVE (mode (state w))) by congruence.
  unfold handleModeChange.
  match goal with
  | |- context [stopRecording host ?ss ?x] =>
      destruct (stopRecording_spec ss x (setStateN_quiet 1))
        as (w1 & -> & Hm1 & K & Hsel1 & Hmon1 & _ & Hcs1)
  end.
  wsimpl. destruct K as (Hrec & _).
  eexists. split; [reflexivity|].
  rewrite state_autosave, isSelectionMode_autosave, isMonitoring_autosave.
  repeat split; auto.
  destruct (currentSession (state w)) as [s|]; wsimpl.
  - rewrite storage_autosave_session. exact Hcs1.
  - destruct Hcs1 as [-> _]. reflexivity.
Qed.

Lemma state_saveSession sd w : state (saveSession sd w) = state w.
Proof. reflexivity. Qed.

(** Stopping through [EnscribeCore.stopSession]. *)
Lemma stopSession_spec (w : World) (s : Session) :
  currentSession (state w) = Some s ->
  let sessionData := withEndTime (clock host (ticks w)) s in
  exists w', stopSession host w = Some w' /\
    mode (state w') = INACTIVE /\ isRecording (state w') = false /\
    currentSession (state w') = None /\
    storage w' !! sessionKey sessionData = Some (StoredSession sessionData) /\
    last (emitted w') = Some (SessionStopped sessionData).
Proof.
  intros Hcs. cbv zeta. unfold stopSession, getState. rewrite Hcs. wsimpl.
  unfold setState. rewrite setStateN_S. unfold recordingListener, saveSession. wsimpl.
  destruct (mode_eqb INACTIVE (mode (state w))).
  - wsimpl. eexists. split; [reflexivity|]. wsimpl.
    rewrite last_snoc.
    destruct (autoSave (settings (state w))); wsimpl; repeat split;
      rewrite ?lookup_insert_ne by apply sessionKey_ne_settings;
      apply lookup_insert_eq.
  - unfold handleModeChange.
    match goal with
    | |- context [stopRecording host ?ss ?x] =>
        destruct (stopRecording_spec ss x (setStateN_quiet 1))
          as (w1 & -> & Hm1 & K & _ & _ & _ & Hcs1)
    end.
    wsimpl. destruct Hcs1 as [Hst Hsto].
    eexists. split; [reflexivity|]. wsimpl. rewrite last_snoc.
    rewrite !state_autosave, storage_autosave_session, Hst, Hsto. wsimpl.
    repeat split. apply lookup_insert_eq.
Qed.

(** A capture leaves the mode alone, so no listener reacts to it. *)
Lemma selectElement_spec (l : Level) (parent : Ancestry) (actionType value : string)
    (w : World) :
  getElementValue l (detectActionType (self l) actionType) = Some value ->
  let session := default emptySession (currentSession (state w)) in
  let record :=
    {| a_id := "action_" +:+ pretty (clock host (ticks w)) +:+ "_" +:+ random host (draws w);
       a_timestamp := clock host (S (ticks w));
       a_type := detectActionType (self l) actionType;
       a_source := FromElement (captureElementMetadata l parent) value;
       a_notes := EmptyString;
       a_context := pageContext host |} in
  exists w', selectElement host l parent actionType w = Some (Returned w') /\
    currentSession (state w') = Some (withActions (actions session ++ [record]) session) /\
    mode (state w') = mode (state w) /\
    selected w' = l :: parent.
Proof.
  intros Hv. cbv zeta. unfold selectElement. wsimpl. rewrite Hv.
  rewrite setState_quiet by reflexivity. wsimpl.
  eexists. split; [reflexivity|]. wsimpl. rewrite state_commit. wsimpl.
  repeat split. unfold commit. wsimpl. destruct (autoSave _); reflexivity.
Qed.

(** A capture whose value cannot be read throws after the identifier and
    the time stamp of the record have been made; the state is untouched. *)
Lemma selectElement_throws (l : Level) (parent : Ancestry) (actionType : string)
    (w : World) :
  getElementValue l (detectActionType (self l) actionType) = None ->
  selectElement host l parent actionType w =
    Some (Thrown "TypeError"
            (with_ticks (2 + ticks w)
               (with_draws (S (draws w)) (with_selected (l :: parent) w)))).
Proof.
  intros Hv. unfold selectElement. wsimpl. rewrite Hv. reflexivity.
Qed.





Lemma setState_total (updates : Updates) (w : World) :
  exists w', setState host updates w = Some w'.
Proof. apply setStateN_total. Qed.

Lemma setState_framed : Framed (setState host).
Proof. apply setStateN_framed. Qed.

End Facts.

(** *** Calls, reachable worlds and the clock *)

Section Clock.
Context (host : Host).

Lemma startedBefore_mono (n n' : nat) (s : Session) :
  n <= n' -> startedBefore host n s -> startedBefore host n' s.
Proof.
  intros Hn H t0 Ht. destruct (H t0 Ht) as (k & Hk & ->). exists k. split; [lia|reflexivity].
Qed.

Lemma currentSession_merge (updates : Updates) (st : State) (s : Session) :
  currentSession (merge st updates) = Some s ->
  SetCurrentSession (Some s) ∈ updates \/ currentSession st = Some s.
Proof.
  unfold merge. revert st.
  induction updates as [|u updates IH]; intros st H; simpl in H; [right; exact H|].
  destruct (IH _ H) as [Hin|Hst].
  - left. apply list_elem_of_further, Hin.
  - destruct u; simpl in Hst; try (right; exact Hst).
    left. rewrite Hst. apply list_elem_of_here.
Qed.

(** The merge keeps the invariant when the sessions it writes satisfy it. *)
Lemma sessionStarted_merge (updates : Updates) (w : World) :
  sessionStarted host w ->
  (forall s, SetCurrentSession (Some s) ∈ updates -> startedBefore host (ticks w) s) ->
  sessionStarted host (with_state (merge (state w) updates) w).
Proof.
  intros Hw Hu s Hs. wsimpl.
  destruct (currentSession_merge updates (state w) s Hs) as [Hin|Hst]; auto.
Qed.

Lemma sessionStarted_autosave (w : World) :
  sessionStarted host (if autoSave (settings (state w)) then saveState w else w) <->
  sessionStarted host w.
Proof. destruct (autoSave _); reflexivity. Qed.

Lemma ticks_autosave (w : World) :
  ticks (if autoSave (settings (state w)) then saveState w else w) = ticks w.
Proof. destruct (autoSave _); reflexivity. Qed.

Lemma sessionStarted_same (w w' : World) :
  state w' = state w -> ticks w <= ticks w' -> sessionStarted host w -> sessionStarted host w'.
Proof.
  intros Hs Ht H s Hcs. rewrite Hs in Hcs.
  eapply startedBefore_mono; [exact Ht|]. apply H, Hcs.
Qed.

Lemma only_session (s x : Session) :
  SetCurrentSession (Some x) ∈ [SetCurrentSession (Some s)] -> x = s.
Proof.
  intros H. apply list_elem_of_singleton in H. congruence.
Qed.

Lemma initializeSession_timed ss w w' :
  Timed host ss -> initializeSession host ss w = Some w' ->
  ticks w <= ticks w' /\ (sessionStarted host w -> sessionStarted host w').
Proof.
  intros T H. unfold initializeSession in H. wsimpl.
  apply bind_Some in H as (w1 & H1 & H2). injection H2 as <-.
  apply T in H1 as [Ht Hinv]. wsimpl. split; [lia|].
  intros Hw. apply Hinv.
  - eapply sessionStarted_same; [| |exact Hw]; wsimpl; [reflexivity|lia].
  - intros x Hx. apply only_session in Hx as ->.
    intros t0 Ht0. simpl in Ht0. injection Ht0 as <-.
    exists (S (S (ticks w))). wsimpl. split; [lia|reflexivity].
Qed.

Lemma no_session (u : Update) (x : Session) :
  keyOf u <> KcurrentSession -> SetCurrentSession (Some x) ∈ [u] -> False.
Proof.
  intros Hk H. apply list_elem_of_singleton in H. subst u. apply Hk. reflexivity.
Qed.

Lemma enableSelectionMode_timed ss w w' :
  Timed host ss -> enableSelectionMode ss w = Some w' ->
  ticks w <= ticks w' /\ (sessionStarted host w -> sessionStarted host w').
Proof.
  intros T H. unfold enableSelectionMode in H.
  destruct (isSelectionMode w).
  - injection H as <-. auto.
  - apply bind_Some in H as (w1 & H1 & H2). injection H2 as <-.
    apply T in H1 as [Ht Hinv]. wsimpl. split; [exact Ht|].
    intros Hw. apply Hinv.
    + exact Hw.
    + intros x Hx. exfalso. eapply no_session; [|exact Hx]. discriminate.
Qed.

Lemma ticks_startMonitoring w : ticks (startMonitoring w) = ticks w.
Proof. unfold startMonitoring. destruct (isMonitoring w); reflexivity. Qed.

Lemma ticks_stopMonitoring w : ticks (stopMonitoring w) = ticks w.
Proof. unfold stopMonitoring. destruct (isMonitoring w); reflexivity. Qed.

Lemma ticks_disableSelectionMode w : ticks (disableSelectionMode w) = ticks w.
Proof. unfold disableSelectionMode. destruct (isSelectionMode w); reflexivity. Qed.

Lemma startManualSelection_timed ss w w' :
  Timed host ss -> startManualSelection host ss w = Some w' ->
  ticks w <= ticks w' /\ (sessionStarted host w -> sessionStarted host w').
Proof.
  intros T H. unfold startManualSelection in H.
  apply bind_Some in H as (w1 & H1 & H).
  apply bind_Some in H as (w2 & H2 & H). injection H as <-.
  apply (initializeSession_timed _ _ _ T) in H1 as [Ht1 Hi1].
  apply (enableSelectionMode_timed _ _ _ T) in H2 as [Ht2 Hi2].
  wsimpl. rewrite ticks_startMonitoring. split; [lia|].
  intros Hw. eapply sessionStarted_same; [| |exact (Hi2 (Hi1 Hw))]; wsimpl.
  - apply state_startMonitoring.
  - rewrite ticks_startMonitoring. lia.
Qed.

Lemma stopRecording_timed ss w w' :
  Timed host ss -> stopRecording host ss w = Some w' ->
  ticks w <= ticks w' /\ (sessionStarted host w -> sessionStarted host w').
Proof.
  intros T H. unfold stopRecording in H. wsimpl.
  rewrite state_stopMonitoring, state_disableSelectionMode in H.
  rewrite ticks_stopMonitoring, ticks_disableSelectionMode in H.
  destruct (currentSession (state w)) as [s|] eqn:Hcs.
  - apply T in H as [Ht Hinv]. wsimpl.
    rewrite ?ticks_stopMonitoring, ?ticks_disableSelectionMode in *.
    split; [lia|]. intros Hw. apply Hinv.
    + eapply sessionStarted_same; [| |exact Hw]; wsimpl.
      * rewrite state_stopMonitoring, state_disableSelectionMode. reflexivity.
      * lia.
    + intros x Hx. apply only_session in Hx as ->.
      eapply startedBefore_mono; [|exact (Hw s Hcs)]. lia.
  - injection H as <-. wsimpl.
    rewrite ticks_stopMonitoring, ticks_disableSelectionMode. split; [lia|].
    intros Hw. eapply sessionStarted_same; [| |exact Hw]; wsimpl.
    + rewrite state_stopMonitoring, state_disableSelectionMode. reflexivity.
    + rewrite ticks_stopMonitoring, ticks_disableSelectionMode. lia.
Qed.

Lemma handleModeChange_timed ss m p w w' :
  Timed host ss -> handleModeChange host ss m p w = Some w' ->
  ticks w <= ticks w' /\ (sessionStarted host w -> sessionStarted host w').
Proof.
  intros T H. unfold handleModeChange in H.
  assert (Hlog : forall msg, sessionStarted host w ->
             sessionStarted host (with_engineMode m (log LOG msg w)))
    by (intros msg Hw; exact Hw).
  destruct m.
  - apply (stopRecording_timed _ _ _ T) in H as [Ht Hi]. wsimpl. auto.
  - apply (startManualSelection_timed _ _ _ T) in H as [Ht Hi]. wsimpl. auto.
  - apply (startManualSelection_timed _ _ _ T) in H as [Ht Hi]. wsimpl. auto.
  - injection H as <-. unfold pauseRecording. wsimpl.
    rewrite ticks_stopMonitoring, ticks_disableSelectionMode. wsimpl. split; [lia|].
    intros Hw. eapply sessionStarted_same; [| |exact Hw]; wsimpl.
    + rewrite state_stopMonitoring, state_disableSelectionMode. reflexivity.
    + rewrite ticks_stopMonitoring, ticks_disableSelectionMode. wsimpl. lia.
Qed.

Lemma setStateN_timed fuel : Timed host (setStateN host fuel).
Proof.
  induction fuel as [|f IH]; intros u w w' H; [discriminate|].
  rewrite setStateN_S in H.
  apply bind_Some in H as (w1 & H1 & H). injection H as <-.
  rewrite ticks_autosave, sessionStarted_autosave.
  unfold recordingListener in H1. destruct (mode_eqb _ _).
  - injection H1 as <-. wsimpl. split; [lia|].
    intros Hw Hu. apply sessionStarted_merge; assumption.
  - apply (handleModeChange_timed _ _ _ _ _ IH) in H1 as [Ht Hi]. wsimpl.
    split; [exact Ht|]. intros Hw Hu. apply Hi, sessionStarted_merge; assumption.
Qed.

Lemma setState_timed : Timed host (setState host).
Proof. apply setStateN_timed. Qed.

(** Updates that write no session. *)
Lemma no_session_written (updates : Updates) :
  KcurrentSession ∉ map keyOf updates ->
  forall n s, SetCurrentSession (Some s) ∈ updates -> startedBefore host n s.
Proof.
  intros Hk n s Hin. exfalso. apply Hk.
  apply (list_elem_of_fmap_2 keyOf) in Hin. exact Hin.
Qed.

Ltac no_key :=
  let H := fresh in
  simpl; intros H; repeat (apply elem_of_cons in H as [H|H]; [discriminate|]);
  inversion H.

Lemma setState_keeps_started (updates : Updates) (w w' : World) :
  KcurrentSession ∉ map keyOf updates ->
  setState host updates w = Some w' ->
  sessionStarted host w -> sessionStarted host w'.
Proof.
  intros Hk H Hw. apply setState_timed in H as [_ Hi].
  apply Hi; [exact Hw|]. apply no_session_written, Hk.
Qed.

Lemma startedBefore_withActions n a s :
  startedBefore host n s -> startedBefore host n (withActions a s).
Proof. intros H. exact H. Qed.

Lemma startedBefore_default (w : World) :
  sessionStarted host w ->
  startedBefore host (ticks w) (default emptySession (currentSession (state w))).
Proof.
  intros Hw. destruct (currentSession (state w)) as [s|] eqn:E; simpl.
  - apply Hw, E.
  - intros t0 Ht. discriminate.
Qed.

Lemma toggleRecording_started w w' :
  toggleRecording host w = Some w' -> sessionStarted host w -> sessionStarted host w'.
Proof.
  unfold toggleRecording. destruct (mode (getState w));
    apply setState_keeps_started; no_key.
Qed.

Lemma pauseSession_started w w' :
  pauseSession host w = Some w' -> sessionStarted host w -> sessionStarted host w'.
Proof.
  unfold pauseSession. destruct (negb _).
  - intros [= <-] Hw. exact Hw.
  - intros H Hw. apply bind_Some in H as (w1 & H1 & [= <-]).
    apply setState_keeps_started in H1; [|no_key|exact Hw]. exact H1.
Qed.

Lemma resumeSession_started w w' :
  resumeSession host w = Some w' -> sessionStarted host w -> sessionStarted host w'.
Proof.
  unfold resumeSession. destruct (negb _).
  - intros [= <-] Hw. exact Hw.
  - intros H Hw. apply bind_Some in H as (w1 & H1 & [= <-]).
    apply setState_keeps_started in H1; [|no_key|exact Hw]. exact H1.
Qed.

Lemma stopSession_started w w' :
  stopSession host w = Some w' -> sessionStarted host w -> sessionStarted host w'.
Proof.
  unfold stopSession. destruct (currentSession (getState w)) as [s|].
  - wsimpl. intros H Hw. apply bind_Some in H as (w1 & H1 & [= <-]).
    apply setState_timed in H1 as [_ Hi]. apply Hi.
    + eapply sessionStarted_same; [| |exact Hw]; wsimpl; [reflexivity|lia].
    + intros x Hx. exfalso.
      repeat (apply elem_of_cons in Hx as [Hx|Hx]; [discriminate|]). inversion Hx.
  - intros [= <-] Hw. exact Hw.
Qed.

Lemma startSession_started name url w sid w' :
  startSession host name url w = Some (sid, w') ->
  sessionStarted host w -> sessionStarted host w'.
Proof.
  unfold startSession. wsimpl. intros H Hw.
  destruct name as [[|c r]|]; wsimpl;
    apply bind_Some in H as (w1 & H1 & [= _ <-]);
    apply setState_timed in H1 as [_ Hi]; wsimpl; apply Hi;
    try (eapply sessionStarted_same; [| |exact Hw]; wsimpl; [reflexivity|lia]);
    intros x Hx;
    (apply elem_of_cons in Hx as [Hx|Hx];
     [ injection Hx as ->; intros t0 [= <-]; eexists; split; [|reflexivity]; wsimpl; lia
     | exfalso; revert Hx; no_key ]).
Qed.

Lemma setRecordingMode_started modeName w o :
  setRecordingMode host modeName w = Some o ->
  sessionStarted host w ->
  sessionStarted host match o with Returned w' => w' | Thrown _ w' => w' end.
Proof.
  unfold setRecordingMode. destruct (parseMode modeName).
  - intros H Hw. apply bind_Some in H as (w1 & H1 & [= <-]).
    apply setState_keeps_started in H1; [exact H1|no_key|exact Hw].
  - intros [= <-] Hw. exact Hw.
Qed.

Lemma selectElement_started l parent actionType w o :
  selectElement host l parent actionType w = Some o ->
  sessionStarted host w -> sessionStarted host (worldOf o).
Proof.
  unfold selectElement. wsimpl. intros H Hw.
  destruct (getElementValue l _) as [value|].
  - apply bind_Some in H as (w1 & H1 & [= <-]).
    apply setState_timed in H1 as [_ Hi]. wsimpl. apply Hi.
    + eapply sessionStarted_same; [| |exact Hw]; wsimpl; [reflexivity|lia].
    + intros x Hx. apply elem_of_cons in Hx as [Hx|Hx]; [discriminate|].
      apply only_session in Hx as ->. wsimpl.
      eapply startedBefore_mono; [|apply startedBefore_withActions, startedBefore_default, Hw].
      lia.
  - injection H as <-. simpl.
    eapply sessionStarted_same; [| |exact Hw]; wsimpl; [reflexivity|lia].
Qed.

Lemma addRequestToActions_started requestData actionType w w' :
  addRequestToActions host requestData actionType w = Some w' ->
  sessionStarted host w -> sessionStarted host w'.
Proof.
  unfold addRequestToActions. wsimpl. intros H Hw.
  apply bind_Some in H as (w1 & H1 & [= <-]).
  apply setState_timed in H1 as [_ Hi]. wsimpl. apply Hi.
  - eapply sessionStarted_same; [| |exact Hw]; wsimpl; [reflexivity|lia].
  - intros x Hx. apply only_session in Hx as ->.
    eapply startedBefore_mono; [|apply startedBefore_withActions, startedBefore_default, Hw].
    lia.
Qed.

Lemma handleClearActions_started confirmed w w' :
  handleClearActions host confirmed w = Some w' ->
  sessionStarted host w -> sessionStarted host w'.
Proof.
  unfold handleClearActions, getState. cbv zeta.
  destruct (currentSession (state w)) as [s|] eqn:Hcs.
  2:{ intros H Hw. injection H as <-. exact Hw. }
  destruct (actions s).
  { intros H Hw. injection H as <-. exact Hw. }
  destruct confirmed.
  2:{ intros H Hw. injection H as <-. exact Hw. }
  intros H Hw.
  apply bind_Some in H as (w1 & H1 & H).
  apply bind_Some in H as (w2 & H2 & H).
  apply bind_Some in H as (w3 & H3 & [= <-]).
  apply setState_timed in H1 as [_ Hi1].
  apply setState_keeps_started in H2; [|no_key|].
  - apply setState_keeps_started in H3; [exact H3|no_key|exact H2].
  - apply Hi1; [exact Hw|].
    intros x Hx. apply only_session in Hx as ->. apply (Hw s Hcs).
Qed.

Lemma perform_started (c : Call) (w w' : World) :
  perform host c w = Some w' -> sessionStarted host w -> sessionStarted host w'.
Proof.
  destruct c; simpl.
  - apply toggleRecording_started.
  - destruct (setRecordingMode host modeName w) as [o|] eqn:E; [|discriminate].
    intros H Hw. pose proof (setRecordingMode_started _ _ _ E Hw) as Ho.
    destruct o; injection H as <-; exact Ho.
  - destruct (startSession host name url w) as [[sid w1]|] eqn:E; [|discriminate].
    intros [= <-]. eapply startSession_started, E.
  - apply stopSession_started.
  - apply pauseSession_started.
  - apply resumeSession_started.
  - unfold handleVisibilityChange. destruct hidden; [|intros [= <-]; auto].
    destruct (_ && _); [apply pauseSession_started|intros [= <-]; auto].
  - unfold handleStartRecording. destruct (mode (getState w));
      try apply toggleRecording_started.
    apply setState_keeps_started. no_key.
  - apply handleClearActions_started.
  - destruct (handleClick host r element w) as [o|] eqn:E; [|discriminate].
    intros H Hw.
    assert (Ho : sessionStarted host (worldOf o)).
    { revert E. unfold handleClick. destruct (negb _); [intros [= <-]; auto|].
      destruct element as [|l parent]; [intros [= <-]; auto|].
      destruct (isExcludedElement _ _); [intros [= <-]; auto|].
      intros E. eapply selectElement_started; eauto. }
    destruct o; injection H as <-; exact Ho.
  - apply addRequestToActions_started.
Qed.

Lemma run_started (calls : list Call) :
  forall w w', run host calls w = Some w' -> sessionStarted host w -> sessionStarted host w'.
Proof.
  induction calls as [|c calls IH]; intros w w' H Hw; simpl in H.
  - injection H as <-. exact Hw.
  - destruct (perform host c w) as [w1|] eqn:E; [|discriminate].
    eapply IH; [exact H|]. eapply perform_started; eauto.
Qed.

(** In every reachable world the start time of the current session was
    read from the clock at an earlier reading. *)
Lemma reachable_started (w : World) : reachable host w -> sessionStarted host w.
Proof.
  intros (w0 & calls & Hinit & Hrun).
  eapply run_started; [exact Hrun|].
  intros s Hs. destruct Hinit as (_ & _ & _ & Hnone & _). congruence.
Qed.

(** With a clock that does not go back, the next reading is not before the
    start time of the current session. *)
Lemma start_before_now (w : World) (s : Session) (t0 : Z) :
  monotone host -> reachable host w ->
  currentSession (state w) = Some s -> startTime s = Some t0 ->
  (t0 <= clock host (ticks w))%Z.
Proof.
  intros Hmono Hr Hcs Ht.
  destruct (reachable_started w Hr s Hcs t0 Ht) as (k & Hk & ->).
  apply Hmono. lia.
Qed.






(** No call of [setState] writes a warning. *)
Lemma stopRecording_warnings ss w w' :
  (forall u x x', ss u x = Some x' -> warnings x' = warnings x) ->
  stopRecording host ss w = Some w' -> warnings w' = warnings w.
Proof.
  intros Hss H. unfold stopRecording, disableSelectionMode, stopMonitoring in H.
  destruct (isSelectionMode w) eqn:Hsel, (isMonitoring w) eqn:Hmon; wsimpl;
    rewrite ?Hsel, ?Hmon in H; wsimpl;
    (destruct (currentSession (state w)); wsimpl;
     [apply Hss in H; rewrite H|injection H as <-];
     unfold warnings; wsimpl; rewrite ?omap_app; simpl; rewrite ?app_nil_r; reflexivity).
Qed.

Lemma initializeSession_warnings ss w w' :
  (forall u x x', ss u x = Some x' -> warnings x' = warnings x) ->
  initializeSession host ss w = Some w' -> warnings w' = warnings w.
Proof.
  intros Hss H. unfold initializeSession in H. wsimpl.
  apply bind_Some in H as (w1 & H1 & [= <-]). apply Hss in H1.
  unfold warnings in *. wsimpl. rewrite omap_app, H1. simpl. apply app_nil_r.
Qed.

Lemma enableSelectionMode_warnings ss w w' :
  (forall u x x', ss u x = Some x' -> warnings x' = warnings x) ->
  enableSelectionMode ss w = Some w' -> warnings w' = warnings w.
Proof.
  intros Hss H. unfold enableSelectionMode in H. destruct (isSelectionMode w).
  - injection H as <-. reflexivity.
  - apply bind_Some in H as (w1 & H1 & [= <-]). apply Hss in H1.
    unfold warnings in *. wsimpl. rewrite omap_app, H1. simpl. apply app_nil_r.
Qed.

Lemma warnings_startMonitoring w : warnings (startMonitoring w) = warnings w.
Proof.
  unfold startMonitoring. destruct (isMonitoring w); [reflexivity|].
  unfold warnings. wsimpl. rewrite omap_app. simpl. apply app_nil_r.
Qed.

Lemma startManualSelection_warnings ss w w' :
  (forall u x x', ss u x = Some x' -> warnings x' = warnings x) ->
  startManualSelection host ss w = Some w' -> warnings w' = warnings w.
Proof.
  intros Hss H. unfold startManualSelection in H.
  apply bind_Some in H as (w1 & H1 & H).
  apply bind_Some in H as (w2 & H2 & [= <-]).
  apply (initializeSession_warnings _ _ _ Hss) in H1.
  apply (enableSelectionMode_warnings _ _ _ Hss) in H2.
  change (warnings (startMonitoring w2) = warnings w).
  rewrite warnings_startMonitoring. congruence.
Qed.

Lemma handleModeChange_warnings ss m p w w' :
  (forall u x x', ss u x = Some x' -> warnings x' = warnings x) ->
  handleModeChange host ss m p w = Some w' -> warnings w' = warnings w.
Proof.
  intros Hss H. unfold handleModeChange in H.
  assert (E : forall msg, warnings (with_engineMode m (log LOG msg w)) = warnings w).
  { intros msg. unfold warnings. wsimpl. rewrite omap_app. simpl. apply app_nil_r. }
  destruct m.
  - apply (stopRecording_warnings _ _ _ Hss) in H. rewrite H. apply E.
  - apply (startManualSelection_warnings _ _ _ Hss) in H. rewrite H. apply E.
  - apply (startManualSelection_warnings _ _ _ Hss) in H. rewrite H. apply E.
  - injection H as <-. unfold pauseRecording, disableSelectionMode, stopMonitoring.
    wsimpl. destruct (isSelectionMode w) eqn:Hsel, (isMonitoring w) eqn:Hmon; wsimpl;
      rewrite ?Hsel, ?Hmon; unfold warnings; wsimpl;
      rewrite ?omap_app; simpl; rewrite ?app_nil_r; reflexivity.
Qed.

Lemma setStateN_warnings fuel u w w' :
  setStateN host fuel u w = Some w' -> warnings w' = warnings w.
Proof.
  revert u w w'. induction fuel as [|f IH]; intros u w w' H; [discriminate|].
  rewrite setStateN_S in H.
  apply bind_Some in H as (w1 & H1 & [= <-]).
  assert (E : warnings w1 = warnings w).
  { unfold recordingListener in H1. destruct (mode_eqb _ _).
    - injection H1 as <-. reflexivity.
    - apply (handleModeChange_warnings _ _ _ _ _ IH) in H1. exact H1. }
  destruct (autoSave _); exact E.
Qed.

Lemma resumeSession_accepted (w : World) :
  isPaused (state w) = true ->
  exists w', resumeSession host w = Some w' /\ warnings w' = warnings w /\
    isPaused (state w') = false /\ last (emitted w') = Some SessionResumed.
Proof.
  intros H. unfold resumeSession, getState. rewrite H. simpl negb. cbv iota.
  destruct (setState_total host [SetIsPaused false; SetMode AUTO_RECORDING] w) as [w1 H1].
  rewrite H1. wsimpl. eexists. split; [reflexivity|].
  pose proof (setStateN_warnings _ _ _ _ H1) as Hw.
  pose proof (setState_framed host _ _ _ H1) as (_ & Hp & _). wsimpl.
  split; [|split].
  - unfold warnings in *. wsimpl. rewrite omap_app, Hw. simpl. apply app_nil_r.
  - congruence.
  - apply last_snoc.
Qed.

Lemma pauseSession_accepted (w : World) :
  isRecording (state w) = true ->
  exists w', pauseSession host w = Some w' /\ warnings w' = warnings w /\
    isPaused (state w') = true /\ last (emitted w') = Some SessionPaused.
Proof.
  intros H. unfold pauseSession, getState. rewrite H. simpl negb. cbv iota.
  destruct (setState_total host [SetIsPaused true; SetMode PAUSED] w) as [w1 H1].
  rewrite H1. wsimpl. eexists. split; [reflexivity|].
  pose proof (setStateN_warnings _ _ _ _ H1) as Hw.
  pose proof (setState_framed host _ _ _ H1) as (_ & Hp & _). wsimpl.
  split; [|split].
  - unfold warnings in *. wsimpl. rewrite omap_app, Hw. simpl. apply app_nil_r.
  - congruence.
  - apply last_snoc.
Qed.

End Clock.

End RecorderFacts.

(** ** Facts about the object store *)

Module ObjectStoreFacts.
Import ObjectStore.

Lemma alloc_fresh (o : gmap string JVal) (m : Manager) :
  heap m !! (alloc o m).1 = None.
Proof. simpl. apply not_elem_of_dom, is_fresh. Qed.

Lemma properties_alloc_new (o : gmap string JVal) (m : Manager) :
  properties (alloc o m).2 (alloc o m).1 = o.
Proof. unfold properties. simpl. rewrite lookup_insert_eq. reflexivity. Qed.

Lemma properties_alloc_old (o : gmap string JVal) (m : Manager) (l : Loc) :
  l ∈ dom (heap m) -> properties (alloc o m).2 l = properties m l.
Proof.
  intros Hl. unfold properties. simpl.
  rewrite lookup_insert_ne; [reflexivity|].
  intros <-. exact (is_fresh (dom (heap m)) Hl).
Qed.

Lemma alloc_dom (o : gmap string JVal) (m : Manager) (l : Loc) :
  l ∈ dom (heap m) -> l ∈ dom (heap (alloc o m).2).
Proof. intros Hl. simpl. rewrite dom_insert. set_solver. Qed.

Lemma alloc_ne (o : gmap string JVal) (m : Manager) (l : Loc) :
  l ∈ dom (heap m) -> (alloc o m).1 <> l.
Proof. intros Hl E. rewrite <- E in Hl. simpl in Hl. exact (is_fresh (dom (heap m)) Hl). Qed.

Lemma properties_assign_other (l l' : Loc) (key : string) (v : JVal) (m : Manager) :
  l <> l' -> properties (assignProperty l key v m) l' = properties m l'.
Proof.
  intros Hne. unfold properties, assignProperty. simpl.
  rewrite lookup_insert_ne by exact Hne. reflexivity.
Qed.

Lemma properties_assign_same (l : Loc) (key : string) (v : JVal) (m : Manager) :
  properties (assignProperty l key v m) l = <[key := v]> (properties m l).
Proof. unfold properties at 1, assignProperty. simpl. rewrite lookup_insert_eq. reflexivity. Qed.

(** The copy that [getState] returns is a new object with the properties
    of the state object; assigning to a property of the copy leaves the
    state object as it was. *)
Lemma getState_copy (m : Manager) :
  stateRef m ∈ dom (heap m) ->
  (getState m).1 <> stateRef (getState m).2 /\
  properties (getState m).2 (getState m).1 = properties m (stateRef m) /\
  forall key v,
    properties (assignProperty (getState m).1 key v (getState m).2)
      (stateRef (getState m).2) = properties m (stateRef m).
Proof.
  intros Hdom. unfold getState.
  pose proof (alloc_ne (properties m (stateRef m)) m (stateRef m) Hdom) as Hne.
  split; [exact Hne|]. split; [apply properties_alloc_new|].
  intros key v. rewrite properties_assign_other by exact Hne.
  apply (properties_alloc_old _ m (stateRef m) Hdom).
Qed.


End ObjectStoreFacts.

(** ** Facts about sessions that the recording engine opens *)

Module FlowFacts.
Import Capture Recorder RecorderFacts.

Section Flow.
Context (host : Host).

Lemma opened_same (w w' : World) :
  currentSession (state w') = currentSession (state w) -> opened host w -> opened host w'.
Proof.
  intros E (sd & t & r & d & H & Hrest). exists sd, t, r, d.
  split; [congruence|exact Hrest].
Qed.

Lemma isMonitoring_startMonitoring w : isMonitoring (startMonitoring w) = true.
Proof. unfold startMonitoring. destruct (isMonitoring w) eqn:E; [exact E|reflexivity]. Qed.

Lemma initializeSession_opened ss w :
  Quiet ss ->
  exists w', initializeSession host ss w = Some w' /\ opened host w' /\
    isSelectionMode w' = isSelectionMode w /\ isMonitoring w' = isMonitoring w /\
    mode (state w') = mode (state w).
Proof.
  intros Q. unfold initializeSession. wsimpl.
  rewrite Q by reflexivity. wsimpl. eexists. split; [reflexivity|].
  split; [|split; [|split]].
  - eexists _, _, _, _. wsimpl. rewrite state_commit. wsimpl.
    split; [reflexivity|]. repeat split.
  - unfold commit. wsimpl. destruct (autoSave _); reflexivity.
  - unfold commit. wsimpl. destruct (autoSave _); reflexivity.
  - wsimpl. rewrite state_commit. reflexivity.
Qed.

Lemma startManualSelection_opened ss w :
  Quiet ss -> isSelectionMode w = true ->
  exists w', startManualSelection host ss w = Some w' /\ opened host w' /\
    isSelectionMode w' = true /\ isMonitoring w' = true /\ engineRecording w' = true /\
    mode (state w') = mode (state w).
Proof.
  intros Q Hsel. unfold startManualSelection.
  destruct (initializeSession_opened ss w Q) as (w1 & -> & Ho & H1 & _ & Hm). wsimpl.
  unfold enableSelectionMode. rewrite H1, Hsel. wsimpl.
  eexists. split; [reflexivity|]. wsimpl.
  rewrite isSelectionMode_startMonitoring, isMonitoring_startMonitoring, state_startMonitoring.
  split; [|repeat split; congruence].
  apply (opened_same w1); [|exact Ho]. wsimpl. rewrite state_startMonitoring. reflexivity.
Qed.

Lemma enableSelectionMode_opened f w :
  opened host w ->
  exists w', enableSelectionMode (setStateN host (S (S f))) w = Some w' /\ opened host w' /\
    isSelectionMode w' = true /\
    mode (state w') = (if isSelectionMode w then mode (state w) else MANUAL_SELECTION).
Proof.
  intros Ho. unfold enableSelectionMode. destruct (isSelectionMode w) eqn:Hsel.
  { exists w. repeat split; assumption. }
  rewrite setStateN_S. unfold recordingListener. wsimpl.
  destruct (mode_eqb MANUAL_SELECTION (mode (state w))).
  - wsimpl. eexists. split; [reflexivity|].
    destruct (autoSave (settings (state w))); wsimpl;
      (split; [apply (opened_same w); [reflexivity|exact Ho] | split; reflexivity]).
  - unfold handleModeChange.
    match goal with
    | |- context [startManualSelection host ?ss ?x] =>
        destruct (startManualSelection_opened ss x) as (w1 & -> & Ho1 & Hs1 & _ & _ & Hm1);
          [apply setStateN_quiet|reflexivity|]
    end.
    wsimpl. eexists. split; [reflexivity|]. wsimpl. rewrite state_autosave.
    split; [|split; [|exact Hm1]].
    + apply (opened_same w1); [|exact Ho1]. wsimpl. rewrite state_autosave. reflexivity.
    + rewrite isSelectionMode_autosave. exact Hs1.
Qed.

Lemma handleModeChange_opens f m p w :
  m = MANUAL_SELECTION \/ m = AUTO_RECORDING ->
  exists w', handleModeChange host (setStateN host (S (S f))) m p w = Some w' /\
    opened host w' /\ isSelectionMode w' = true /\ isMonitoring w' = true /\
    engineRecording w' = true /\
    mode (state w') = (if isSelectionMode w then mode (state w) else MANUAL_SELECTION).
Proof.
  intros Hm.
  assert (E : handleModeChange host (setStateN host (S (S f))) m p w =
              startManualSelection host (setStateN host (S (S f)))
                (with_engineMode m
                   (log LOG ("Enscriber: Recording mode changed from " +:+ modeString p
                             +:+ " to " +:+ modeString m) w))).
  { unfold handleModeChange, startAutoRecording, startManualSelection.
    destruct Hm as [-> | ->]; reflexivity. }
  rewrite E. clear E. unfold startManualSelection.
  match goal with
  | |- context [initializeSession host ?ss ?x] =>
      destruct (initializeSession_opened ss x) as (w1 & -> & Ho1 & Hs1 & _ & Hm1);
        [apply setStateN_quiet|]
  end.
  wsimpl. destruct (enableSelectionMode_opened f w1 Ho1) as (w2 & -> & Ho2 & Hs2 & Hm2).
  wsimpl. eexists. split; [reflexivity|]. wsimpl.
  rewrite isSelectionMode_startMonitoring, isMonitoring_startMonitoring, state_startMonitoring.
  split; [|split; [exact Hs2|split; [reflexivity|split; [reflexivity|]]]].
  - apply (opened_same w2); [|exact Ho2]. wsimpl. rewrite state_startMonitoring. reflexivity.
  - rewrite Hm2, Hs1, Hm1. reflexivity.
Qed.

(** A call of [setState] that changes the mode to manual selection or to
    automatic recording opens a new session. *)
Lemma setState_opens (updates : Updates) (w : World) :
  let m := mode (merge (state w) updates) in
  m <> mode (state w) -> m = MANUAL_SELECTION \/ m = AUTO_RECORDING ->
  exists w', setState host updates w = Some w' /\ opened host w' /\
    isSelectionMode w' = true /\ isMonitoring w' = true /\
    mode (state w') = (if isSelectionMode w then m else MANUAL_SELECTION) /\
    keeps (merge (state w) updates) (state w').
Proof.
  cbv zeta. intros Hne Hm.
  destruct (setState_total host updates w) as [w' Hw'].
  exists w'. split; [exact Hw'|].
  pose proof (setState_framed host updates w w' Hw') as K.
  unfold setState in Hw'. rewrite setStateN_S in Hw'. unfold recordingListener in Hw'.
  wsimpl. rewrite (mode_eqb_neq _ _ Hne) in Hw'.
  match type of Hw' with
  | context [handleModeChange host _ ?m ?p ?x] =>
      destruct (handleModeChange_opens 0 m p x Hm) as (w1 & E & Ho & Hs & Hmon & _ & Hmode)
  end.
  rewrite E in Hw'. wsimpl. injection Hw' as <-.
  rewrite state_autosave, isSelectionMode_autosave, isMonitoring_autosave.
  split; [|split; [exact Hs|split; [exact Hmon|split; [exact Hmode|]]]].
  - apply (opened_same w1); [|exact Ho]. rewrite state_autosave. reflexivity.
  - rewrite state_autosave in K. exact K.
Qed.

Lemma isSelectionMode_pauseRecording w : isSelectionMode (pauseRecording w) = false.
Proof.
  unfold pauseRecording, stopMonitoring, disableSelectionMode.
  destruct (isSelectionMode w) eqn:Hs.
  - wsimpl. destruct (isMonitoring w); reflexivity.
  - destruct (isMonitoring w); wsimpl; exact Hs.
Qed.

Lemma isMonitoring_pauseRecording w : isMonitoring (pauseRecording w) = false.
Proof.
  unfold pauseRecording, stopMonitoring.
  destruct (isMonitoring (disableSelectionMode w)) eqn:Hm; [reflexivity|exact Hm].
Qed.

Lemma state_pauseRecording w : state (pauseRecording w) = state w.
Proof.
  unfold pauseRecording. rewrite state_stopMonitoring, state_disableSelectionMode.
  reflexivity.
Qed.

(** A call of [setState] that sets the mode to paused installs the merged
    state; when it changes the mode, the listener disarms the capture. *)
Lemma setState_pauses (updates : Updates) (w : World) :
  mode (merge (state w) updates) = PAUSED ->
  exists w', setState host updates w = Some w' /\
    state w' = merge (state w) updates /\
    (mode (state w) <> PAUSED -> isSelectionMode w' = false /\ isMonitoring w' = false).
Proof.
  intros Hm. unfold setState. rewrite setStateN_S. unfold recordingListener.
  rewrite Hm. destruct (mode_eqb PAUSED (mode (state w))) eqn:E.
  - cbn [mbind option_bind]. eexists. split; [reflexivity|].
    rewrite state_autosave. split; [reflexivity|].
    intros Hne. apply mode_eqb_eq in E. congruence.
  - unfold handleModeChange. cbn [mbind option_bind]. eexists. split; [reflexivity|].
    rewrite state_autosave, isSelectionMode_autosave, isMonitoring_autosave.
    rewrite state_pauseRecording, isSelectionMode_pauseRecording, isMonitoring_pauseRecording.
    split; [reflexivity|]. intros _. split; reflexivity.
Qed.

Lemma capturedRequests_commit u w : capturedRequests (commit u w) = capturedRequests w.
Proof. unfold commit. wsimpl. destruct (autoSave _); reflexivity. Qed.

Lemma isSelectionMode_commit u w : isSelectionMode (commit u w) = isSelectionMode w.
Proof. unfold commit. wsimpl. destruct (autoSave _); reflexivity. Qed.

(** *** The bound on the nesting does not matter once it is reached *)

Lemma bind_below {A B} (m : option A) (k k' : A -> option B) (b : B) :
  (forall a b, k a = Some b -> k' a = Some b) -> m ≫= k = Some b -> m ≫= k' = Some b.
Proof. intros Hk. destruct m; simpl; [apply Hk|discriminate]. Qed.

Section Below.
Variables ss ss' : Updates -> World -> option World.
Hypothesis below : forall u w w', ss u w = Some w' -> ss' u w = Some w'.

Lemma initializeSession_below w w' :
  initializeSession host ss w = Some w' -> initializeSession host ss' w = Some w'.
Proof.
  unfold initializeSession. wsimpl. intros H.
  apply bind_Some in H as (w1 & H1 & H2). rewrite (below _ _ _ H1). exact H2.
Qed.

Lemma enableSelectionMode_below w w' :
  enableSelectionMode ss w = Some w' -> enableSelectionMode ss' w = Some w'.
Proof.
  unfold enableSelectionMode. destruct (isSelectionMode w); [trivial|].
  intros H. apply bind_Some in H as (w1 & H1 & H2). rewrite (below _ _ _ H1). exact H2.
Qed.

Lemma startManualSelection_below w w' :
  startManualSelection host ss w = Some w' -> startManualSelection host ss' w = Some w'.
Proof.
  unfold startManualSelection. intros H.
  apply bind_Some in H as (w1 & H1 & H). apply bind_Some in H as (w2 & H2 & H).
  rewrite (initializeSession_below _ _ H1). cbn [mbind option_bind].
  rewrite (enableSelectionMode_below _ _ H2). exact H.
Qed.

Lemma stopRecording_below w w' :
  stopRecording host ss w = Some w' -> stopRecording host ss' w = Some w'.
Proof.
  unfold stopRecording. cbv zeta.
  destruct (currentSession _); [|trivial].
  unfold dateNow. apply below.
Qed.

Lemma recordingListener_below n p w w' :
  recordingListener host ss n p w = Some w' -> recordingListener host ss' n p w = Some w'.
Proof.
  unfold recordingListener. destruct (mode_eqb _ _); [trivial|].
  unfold handleModeChange, startAutoRecording.
  destruct (mode n).
  - apply stopRecording_below.
  - apply startManualSelection_below.
  - apply startManualSelection_below.
  - trivial.
Qed.

End Below.

Lemma setStateN_step f u w w' :
  setStateN host f u w = Some w' -> setStateN host (S f) u w = Some w'.
Proof.
  revert u w w'. induction f as [|f IH]; intros u w w' H; [discriminate|].
  rewrite setStateN_S in *.
  apply bind_Some in H as (w1 & H1 & H2).
  rewrite (recordingListener_below _ _ IH _ _ _ _ H1). exact H2.
Qed.

Lemma setStateN_more f g u w w' :
  setStateN host f u w = Some w' -> setStateN host (g + f) u w = Some w'.
Proof.
  intros H. induction g as [|g IH]; [exact H|]. apply setStateN_step, IH.
Qed.

End Flow.
End FlowFacts.

(** ** Facts about the edits of the action list *)

Module EditFacts.
Import Capture Recorder.

Lemma filterFrom_cons {A} (keep : nat -> bool) (index : nat) (a : A) (rest : list A) :
  filterFrom keep index (a :: rest) =
    if keep index then a :: filterFrom keep (S index) rest
    else filterFrom keep (S index) rest.
Proof. reflexivity. Qed.

Lemma filterFrom_past {A} (l : list A) (n m : nat) :
  n < m -> filterFrom (fun index => negb (index =? n)%nat) m l = l.
Proof.
  revert m. induction l as [|x l IH]; intros m Hnm; [reflexivity|].
  rewrite filterFrom_cons.
  replace (m =? n)%nat with false by (symmetry; apply Nat.eqb_neq; lia).
  cbn [negb]. f_equal. apply IH. lia.
Qed.

(** Filtering out one index is the deletion of that index. *)
Lemma filterFrom_delete {A} (l : list A) (from k : nat) :
  filterFrom (fun index => negb (index =? from + k)%nat) from l = delete k l.
Proof.
  revert from k. induction l as [|a rest IH]; intros from k; [destruct k; reflexivity|].
  rewrite filterFrom_cons. destruct k as [|k].
  - rewrite Nat.add_0_r, Nat.eqb_refl. cbn [negb]. apply filterFrom_past. lia.
  - replace (from =? from + S k)%nat with false by (symmetry; apply Nat.eqb_neq; lia).
    cbn [negb]. simpl. f_equal.
    replace (from + S k) with (S from + k) by lia. apply IH.
Qed.

End EditFacts.

(** ** Facts about the export and the parent context *)

Module ExportFacts.
Import Capture.

Lemma countSame_le_elements (tag : string) (ns : list Node) :
  XPath.countSame tag ns <= length (filter (fun n => isElement n = true) ns).
Proof.
  induction ns as [|n ns IH]; [reflexivity|].
  rewrite filter_cons. destruct n as [e cs| |]; simpl.
  - destruct (String.eqb (tagName e) tag); simpl; lia.
  - exact IH.
  - exact IH.
Qed.

Lemma firstSegment_no_space (s : string) :
  JS.allChars (JS.isNot " ") (firstSegment s) = true.
Proof.
  induction s as [|c r IH]; [reflexivity|]. simpl.
  destruct (Ascii.eqb c " ") eqn:E; [reflexivity|].
  simpl. unfold JS.isNot at 1. rewrite E, IH. reflexivity.
Qed.

Lemma firstSegment_split (s : string) :
  s = firstSegment s \/ exists rest, s = firstSegment s +:+ " " +:+ rest.
Proof.
  induction s as [|c r IH]; [left; reflexivity|]. simpl.
  destruct (Ascii.eqb c " ") eqn:E.
  - apply Ascii.eqb_eq in E as ->. right. exists r. reflexivity.
  - destruct IH as [IH|[rest IH]].
    + left. congruence.
    + right. exists rest. rewrite JSFacts.append_cons. congruence.
Qed.

Lemma closest_elem_of (sel : Selector) (element : Ancestry) (l : Level) :
  l ∈ element -> matches sel (self l) = true -> closest sel element = true.
Proof.
  intros Hin Hm. unfold closest. apply existsb_exists.
  exists l. split; [apply list_elem_of_In, Hin|exact Hm].
Qed.

End ExportFacts.

(** * The claims *)

Import Capture Recorder.

(** ** Selector synthesis *)



(** C2.  For every element, the capture returns a selector set that is not
    empty: [generateXPath] always returns a path, which starts with a slash;
    when the element has no id the path is the positional one, with one part
    for the element and one for each of its ancestors. *)
Theorem C2_selector_set_never_empty (l : Level) (parent : Ancestry) :
  let m := captureElementMetadata l parent in
  selectorSet m <> [] /\
  (exists rest, xpath m = String "/" rest) /\
  xpath m =
    (if JS.truthy (id (self l))
     then "//*[@id=" +:+ JS.dquote +:+ id (self l) +:+ JS.dquote +:+ "]"
     else "/" +:+ JS.join "/" (map XPath.part (rev (l :: parent)))) /\
  length (map XPath.part (rev (l :: parent))) = S (length parent).
Proof.
  cbv zeta. split; [discriminate|].
  assert (E : xpath (captureElementMetadata l parent) =
    (if JS.truthy (id (self l))
     then "//*[@id=" +:+ JS.dquote +:+ id (self l) +:+ JS.dquote +:+ "]"
     else "/" +:+ JS.join "/" (map XPath.part (rev (l :: parent))))).
  { unfold captureElementMetadata. cbn [xpath]. unfold XPath.generateXPath.
    rewrite XPathFacts.walk_spec, app_nil_r. reflexivity. }
  split; [|split; [exact E|]].
  - rewrite E. destruct (JS.truthy (id (self l))); simpl; eauto.
  - rewrite length_map, length_rev. reflexivity.
Qed.

(** C3, as the script has it.  When the element itself has an id the XPath
    is the id test on that element; the ids of its ancestors are not
    consulted.  Otherwise the XPath is positional: one part for each element
    from the top of the tree down to the node, where the index of a part is
    one more than the number of preceding siblings with the same tag name
    and the part is written [tag[index]] only when the index exceeds one. *)
Theorem C3_xpath_shape (l : Level) (parent : Ancestry) :
  XPath.generateXPath (l :: parent) =
    (if JS.truthy (id (self l))
     then "//*[@id=" +:+ JS.dquote +:+ id (self l) +:+ JS.dquote +:+ "]"
     else "/" +:+ JS.join "/" (map XPath.part (rev (l :: parent)))) /\
  (forall a : Level,
     XPath.siblingIndex a = 1 + XPath.countSame (tagName (self a)) (before a) /\
     XPath.part a =
       if (1 <? XPath.siblingIndex a)%nat
       then JS.toLowerCase (tagName (self a)) +:+ "[" +:+ pretty (XPath.siblingIndex a) +:+ "]"
       else JS.toLowerCase (tagName (self a))).
Proof.
  split.
  - unfold XPath.generateXPath. rewrite XPathFacts.walk_spec, app_nil_r. reflexivity.
  - intros a. split; [apply XPathFacts.siblingIndex_spec|reflexivity].
Qed.

(** C3, as stated, fails on the second span of the sample page: its parent
    has the id [main], and the XPath is the positional path from the root,
    which does not name that id. *)
Lemma C3_counterexample :
  Spec.nearestAnchor (tail Sample.secondSpan) = Some "main" /\
  XPath.generateXPath Sample.secondSpan = "/html/body/div/span[2]" /\
  ~ Spec.xpathAsSpecified Sample.secondSpan (XPath.generateXPath Sample.secondSpan).
Proof.
  split; [reflexivity|]. split; [reflexivity|].
  vm_compute. discriminate.
Qed.




(** ** Classification and the capture filter *)

(** C5.  On every element but one kind the classification follows the
    table of the claim: an input of a text type and a textarea give [input]
    with the value, or else the placeholder; a checkbox and a radio button
    give [check] with [checked] or [unchecked]; a select element gives
    [select] with the text of the first selected option; every other
    element gives [click] with the trimmed text content cut to 50
    characters.  The classification throws on an element whose tag name is
    [select] and which is not an HTML select element.  A click on it in
    selection mode is detected as a [select] action; the read of
    [selectedOptions.length] throws a TypeError; the click handler ends
    with that error, and the state is as before: nothing is recorded. *)
Theorem C5_classification_throws (host : Host) (w : World) :
  isSelectionMode w = true ->
  (forall l : Level,
     let e := self l in
     let tag := JS.toLowerCase (tagName e) in
     let inputType := JS.toLowerCase (type e) in
     let text := textContent (node_of l) in
     (tag = "input" -> inputType ∈ textTypes ->
        classify l = Some ("input", if JS.truthy (value e) then value e else placeholder e)) /\
     (tag = "input" -> inputType ∈ checkTypes ->
        classify l = Some ("check", if checked e then "checked" else "unchecked")) /\
     (tag = "select" ->
        classify l =
          match selectedOptions e with
          | Some (o :: _) => Some ("select", o)
          | Some [] => Some ("select", EmptyString)
          | None => None
          end) /\
     (tag = "textarea" ->
        classify l = Some ("input", if JS.truthy (value e) then value e else placeholder e)) /\
     (tag <> "textarea" -> tag <> "select" ->
      tag <> "input" \/ ((inputType ∉ textTypes) /\ (inputType ∉ checkTypes)) ->
        classify l = Some ("click", JS.substring0 50 (JS.trim text)) /\
        String.length (JS.substring0 50 (JS.trim text)) <= 50)) /\
  detectActionType Sample.foreignSelect "click" = "select" /\
  getElementValue Sample.foreignSelectLevel "select" = None /\
  classify Sample.foreignSelectLevel = None /\
  isExcludedElement RDocument (Sample.foreignSelectLevel :: Sample.foreignSelectParents) = false /\
  exists w',
    handleClick host RDocument (Sample.foreignSelectLevel :: Sample.foreignSelectParents) w =
      Some (Thrown "TypeError" w') /\
    state w' = state w.
Proof.
  intros Hsel.
  split.
  { intros l. cbv zeta.
    destruct (CaptureFacts.classify_table l) as (H1 & H2 & H3 & H4 & H5).
    split; [exact H1|]. split; [exact H2|]. split; [exact H3|]. split; [exact H4|].
    intros Ha Hb Hc. split; [exact (H5 Ha Hb Hc)|apply JSFacts.substring0_length]. }
  split; [reflexivity|]. split; [reflexivity|]. split; [reflexivity|].
  assert (Hex : isExcludedElement RDocument
                  (Sample.foreignSelectLevel :: Sample.foreignSelectParents) = false)
    by reflexivity.
  split; [exact Hex|].
  unfold handleClick. rewrite Hsel, Hex. cbn [negb].
  rewrite (RecorderFacts.selectElement_throws host Sample.foreignSelectLevel
             Sample.foreignSelectParents "click" w eq_refl).
  eexists. split; reflexivity.
Qed.

(** C5 at the sample world in which a session is being recorded. *)
Lemma C5_witness :
  isSelectionMode Sample.recordingWorld = true /\
  exists w',
    handleClick Sample.host RDocument
      (Sample.foreignSelectLevel :: Sample.foreignSelectParents) Sample.recordingWorld =
      Some (Thrown "TypeError" w') /\
    state w' = state Sample.recordingWorld.
Proof.
  assert (H : isSelectionMode Sample.recordingWorld = true) by (vm_compute; reflexivity).
  split; [exact H|].
  exact (proj2 (proj2 (proj2 (proj2 (proj2
           (C5_classification_throws Sample.host Sample.recordingWorld H)))))).
Defined.

(** C8.  The filter excludes what carries a mark of the tool: an element
    that has, or has an ancestor with, the namespace in its id or in its
    class name, and every element under the shadow root of the floating
    panel; a click there records nothing.  The message that the script
    shows after a capture is part of its own interface too, and it carries
    no mark: it has no id and no class name and it hangs under the body of
    the page, outside the panel.  The filter lets it through, and a click
    on it in selection mode is recorded as a click action of the session. *)
Theorem C8_click_on_confirmation_recorded (host : Host) (w : World)
    (style text : string) (pageNodes : list Node) :
  let l := Sample.confirmationLevel style text pageNodes in
  let parent := Sample.confirmationParents style text pageNodes in
  let session := default emptySession (currentSession (state w)) in
  isSelectionMode w = true ->
  (forall (r : Root) (element : Ancestry) (a : Level),
     a ∈ element ->
     JS.includes "enscriber" (id (self a)) = true \/
     (exists s, className (self a) = ClassString s /\ JS.includes "enscriber" s = true) \/
     r = RShadow "enscriber-floating-panel" ->
     isExcludedElement r element = true /\
     handleClick host r element w = Some (Returned w)) /\
  isExcludedElement RDocument (l :: parent) = false /\
  exists w' record s',
    handleClick host RDocument (l :: parent) w = Some (Returned w') /\
    currentSession (state w') = Some s' /\
    actions s' = actions session ++ [record] /\
    a_type record = "click" /\
    a_source record =
      FromElement (captureElementMetadata l parent)
        (if JS.truthy text then JS.substring0 50 (JS.trim text) else EmptyString).
Proof.
  cbv zeta. intros Hsel.
  split.
  { intros r element a Hin Hmark.
    assert (Hm : marked r (self a) = true).
    { destruct Hmark as [Hid|[(s & Hc & Hs)| ->]].
      - apply CaptureFacts.marked_by_id, Hid.
      - apply (CaptureFacts.marked_by_class r (self a) s Hc Hs).
      - apply CaptureFacts.marked_in_panel. }
    assert (Hex : isExcludedElement r element = true).
    { unfold isExcludedElement. destruct element as [|b rest]; [reflexivity|].
      rewrite (CaptureFacts.ancestorWalk_elem_of r (b :: rest) a Hin Hm). reflexivity. }
    split; [exact Hex|].
    unfold handleClick. rewrite Hsel, Hex. cbn [negb].
    destruct element; reflexivity. }
  assert (Hex : isExcludedElement RDocument
                  (Sample.confirmationLevel style text pageNodes
                   :: Sample.confirmationParents style text pageNodes) = false)
    by reflexivity.
  split; [exact Hex|].
  unfold handleClick. rewrite Hsel, Hex. cbn [negb].
  destruct (RecorderFacts.selectElement_spec host
              (Sample.confirmationLevel style text pageNodes)
              (Sample.confirmationParents style text pageNodes) "click"
              (if JS.truthy text then JS.substring0 50 (JS.trim text) else EmptyString)
              w)
    as (w' & Hw' & Hcs & _).
  { reflexivity. }
  eexists w', _, _. split; [exact Hw'|]. split; [exact Hcs|].
  split; [reflexivity|]. split; reflexivity.
Qed.

(** C8 in the sample world after a capture, when the message is on the
    page: the click on the message is recorded as a second action. *)
Lemma C8_witness :
  isSelectionMode Sample.capturedWorld = true /\
  isExcludedElement RDocument
    (Sample.confirmationLevel "position: fixed;" "CLICK action recorded" []
     :: Sample.confirmationParents "position: fixed;" "CLICK action recorded" []) = false /\
  exists w' record s',
    handleClick Sample.host RDocument
      (Sample.confirmationLevel "position: fixed;" "CLICK action recorded" []
       :: Sample.confirmationParents "position: fixed;" "CLICK action recorded" [])
      Sample.capturedWorld = Some (Returned w') /\
    currentSession (state w') = Some s' /\
    actions s' =
      actions (default emptySession (currentSession (state Sample.capturedWorld)))
      ++ [record] /\
    a_type record = "click".
Proof.
  assert (H : isSelectionMode Sample.capturedWorld = true) by (vm_compute; reflexivity).
  split; [exact H|].
  destruct (C8_click_on_confirmation_recorded Sample.host Sample.capturedWorld
              "position: fixed;" "CLICK action recorded" [] H)
    as (_ & Hex & w' & record & s' & H1 & H2 & H3 & H4 & _).
  split; [exact Hex|].
  exists w', record, s'. repeat split; assumption.
Defined.

(** ** The recording state *)

(** C6.  The two stop paths disagree about the session.  Take a state that
    is not inactive and has a current session.  A stop stamps the session
    with the clock reading as its end time and keeps its start time and its
    actions; in a world that calls have reached after initialization, with
    a clock that does not go back, the end time is not before the start
    time.  Stopping through the recording engine ([toggleRecording], the
    panel's button) yields the inactive mode, stores the stamped session
    and keeps it as the current session, as the claim says.
    [EnscribeCore.stopSession] yields the inactive mode and stores the
    stamped session, and then sets the current session to null: the
    session is not retained. *)
Theorem C6_stop_paths_disagree (host : Host) (w : World) (s : Session) :
  currentSession (state w) = Some s ->
  mode (state w) <> INACTIVE ->
  let sessionData := withEndTime (clock host (ticks w)) s in
  endTime sessionData = Some (clock host (ticks w)) /\
  startTime sessionData = startTime s /\
  actions sessionData = actions s /\
  (monotone host -> reachable host w ->
   forall t0, startTime sessionData = Some t0 ->
     exists t1, endTime sessionData = Some t1 /\ (t0 <= t1)%Z) /\
  (exists w', toggleRecording host w = Some w' /\
     mode (state w') = INACTIVE /\
     currentSession (state w') = Some sessionData /\
     storage w' !! sessionKey sessionData = Some (StoredSession sessionData)) /\
  (exists w', stopSession host w = Some w' /\
     mode (state w') = INACTIVE /\
     currentSession (state w') = None /\
     storage w' !! sessionKey sessionData = Some (StoredSession sessionData)).
Proof.
  intros Hcs Hm. cbv zeta.
  split; [reflexivity|]. split; [reflexivity|]. split; [reflexivity|].
  split; [|split].
  - intros Hmono Hr t0 Ht0. eexists. split; [reflexivity|].
    exact (RecorderFacts.start_before_now host w s t0 Hmono Hr Hcs Ht0).
  - destruct (RecorderFacts.toggleRecording_stop host w Hm)
      as (w' & Ht & Hmode & _ & _ & _ & Hs).
    rewrite Hcs in Hs. destruct Hs as [Hs1 Hs2].
    exists w'. repeat split; assumption.
  - destruct (RecorderFacts.stopSession_spec host w s Hcs)
      as (w' & Ht & Hmode & _ & Hnone & Hsto & _).
    exists w'. repeat split; assumption.
Qed.

(** C6 at the sample world in which a session is being recorded: it is
    reached by one call of [startSession], and its mode is manual
    selection.  The engine's stop keeps the session, stamped with 1009;
    [stopSession] leaves no current session. *)
Lemma C6_witness :
  reachable Sample.host Sample.recordingWorld /\
  mode (state Sample.recordingWorld) = MANUAL_SELECTION /\
  exists s,
    currentSession (state Sample.recordingWorld) = Some s /\
    startTime s = Some 1008%Z /\
    clock Sample.host (ticks Sample.recordingWorld) = 1009%Z /\
    (exists w', toggleRecording Sample.host Sample.recordingWorld = Some w' /\
       mode (state w') = INACTIVE /\
       currentSession (state w') =
         Some (withEndTime (clock Sample.host (ticks Sample.recordingWorld)) s)) /\
    (exists w', stopSession Sample.host Sample.recordingWorld = Some w' /\
       mode (state w') = INACTIVE /\
       currentSession (state w') = None).
Proof.
  assert (Hreach : reachable Sample.host Sample.recordingWorld).
  { exists initialWorld, [StartSession None None].
    split; [repeat split|]. vm_compute. reflexivity. }
  assert (Hmode : mode (state Sample.recordingWorld) = MANUAL_SELECTION)
    by (vm_compute; reflexivity).
  assert (Hm : mode (state Sample.recordingWorld) <> INACTIVE)
    by (rewrite Hmode; discriminate).
  split; [exact Hreach|]. split; [exact Hmode|].
  destruct (currentSession (state Sample.recordingWorld)) as [s|] eqn:Hcs;
    [|vm_compute in Hcs; discriminate].
  assert (Hst : startTime s = Some 1008%Z).
  { vm_compute in Hcs. injection Hcs as <-. reflexivity. }
  exists s. split; [reflexivity|]. split; [exact Hst|].
  split; [vm_compute; reflexivity|].
  destruct (C6_stop_paths_disagree Sample.host Sample.recordingWorld s Hcs Hm)
    as (_ & _ & _ & _ & (w' & Ht & Hmd & Hcur & _) & (w2 & Hs & Hmd2 & Hnone & _)).
  split.
  - exists w'. repeat split; assumption.
  - exists w2. repeat split; assumption.
Defined.

(** A call of [setState] writes no warning, and neither do the lines and
    the events that the core adds after it. *)
Lemma startSession_accepted (host : Host) (name url : option string) (w : World) :
  exists sessionId w' sessionData,
    startSession host name url w = Some (sessionId, w') /\
    warnings w' = warnings w /\
    isRecording (state w') = true /\
    last (emitted w') = Some (SessionStarted sessionId sessionData).
Proof.
  unfold startSession. RecorderFacts.wsimpl.
  destruct name as [[|c r]|]; RecorderFacts.wsimpl;
    match goal with
    | |- context [setState host ?u ?x] =>
        destruct (RecorderFacts.setState_total host u x) as [w1 H1]; rewrite H1
    end;
    RecorderFacts.wsimpl; eexists _, _, _; (split; [reflexivity|]);
    pose proof (RecorderFacts.setStateN_warnings _ _ _ _ _ H1) as Hw;
    pose proof (RecorderFacts.setState_framed host _ _ _ H1) as (Hr & _);
    RecorderFacts.wsimpl;
    (split;
     [ unfold warnings in *; RecorderFacts.wsimpl; rewrite omap_app, Hw; simpl;
       apply app_nil_r
     | split; [congruence | apply last_snoc] ]).
Qed.

Lemma setRecordingMode_accepted (host : Host) (m : Mode) (w : World) :
  exists w',
    setRecordingMode host (modeString m) w = Some (Returned w') /\
    warnings w' = warnings w /\
    last (emitted w') = Some (ModeChanged (mode (state w)) m).
Proof.
  unfold setRecordingMode.
  replace (parseMode (modeString m)) with (Some m) by (destruct m; reflexivity).
  destruct (RecorderFacts.setState_total host [SetMode m] w) as [w1 H1]. rewrite H1.
  RecorderFacts.wsimpl. eexists. split; [reflexivity|].
  pose proof (RecorderFacts.setStateN_warnings _ _ _ _ _ H1) as Hw.
  split.
  - unfold warnings in *. RecorderFacts.wsimpl. rewrite omap_app, Hw. simpl.
    apply app_nil_r.
  - apply last_snoc.
Qed.

(** C7, as the script has it.  [resumeSession] called while the [isPaused]
    flag is off, [pauseSession] called while the [isRecording] flag is off
    and [stopSession] called while there is no current session are
    rejected: the call writes a warning to the console and returns; the
    state, the store and the emitted events are as before.  A call of
    [setRecordingMode] with a name that is no mode throws an error to its
    caller and changes nothing.  [setRecordingMode] with the name of a mode
    and [startSession] have no guard: in every state they are accepted,
    write no warning and emit their event. *)
Theorem C7_rejected_transitions (host : Host) (w : World) :
  (isPaused (state w) = false ->
     resumeSession host w = Some (log WARN "Enscriber: No paused session to resume" w)) /\
  (isRecording (state w) = false ->
     pauseSession host w = Some (log WARN "Enscriber: No active session to pause" w)) /\
  (currentSession (state w) = None ->
     stopSession host w = Some (log WARN "Enscriber: No active session to stop" w)) /\
  (forall msg, let w' := log WARN msg w in
     state w' = state w /\ storage w' = storage w /\ emitted w' = emitted w /\
     isSelectionMode w' = isSelectionMode w /\ isMonitoring w' = isMonitoring w /\
     warnings w' = warnings w ++ [msg]) /\
  (forall modeName, parseMode modeName = None ->
     setRecordingMode host modeName w =
       Some (Thrown ("Invalid recording mode: " +:+ modeName) w)) /\
  (forall m, exists w',
     setRecordingMode host (modeString m) w = Some (Returned w') /\
     warnings w' = warnings w /\
     last (emitted w') = Some (ModeChanged (mode (state w)) m)) /\
  (forall name url, exists sessionId w' sessionData,
     startSession host name url w = Some (sessionId, w') /\
     warnings w' = warnings w /\
     isRecording (state w') = true /\
     last (emitted w') = Some (SessionStarted sessionId sessionData)).
Proof.
  split; [|split; [|split; [|split; [|split; [|split]]]]].
  - intros H. unfold resumeSession, getState. rewrite H. reflexivity.
  - intros H. unfold pauseSession, getState. rewrite H. reflexivity.
  - intros H. unfold stopSession, getState. rewrite H. reflexivity.
  - intros msg. unfold warnings, log. simpl. rewrite omap_app. repeat split.
  - intros modeName H. unfold setRecordingMode. rewrite H. reflexivity.
  - intros m. apply setRecordingMode_accepted.
  - intros name url. apply startSession_accepted.
Qed.

(** C7 at the initial world, which is neither paused nor recording, and
    with a name that is no mode. *)
Lemma C7_witness :
  isPaused (state initialWorld) = false /\
  resumeSession Sample.host initialWorld =
    Some (log WARN "Enscriber: No paused session to resume" initialWorld) /\
  isRecording (state initialWorld) = false /\
  pauseSession Sample.host initialWorld =
    Some (log WARN "Enscriber: No active session to pause" initialWorld) /\
  parseMode "recording" = None /\
  setRecordingMode Sample.host "recording" initialWorld =
    Some (Thrown "Invalid recording mode: recording" initialWorld).
Proof.
  pose proof (C7_rejected_transitions Sample.host initialWorld)
    as (Hresume & Hpause & _ & _ & Hmode & _).
  split; [reflexivity|]. split; [exact (Hresume eq_refl)|].
  split; [reflexivity|]. split; [exact (Hpause eq_refl)|].
  split; [reflexivity|]. exact (Hmode "recording" eq_refl).
Defined.

(** C7, as stated, fails for a start during a recording, an event the
    transition table lists for no active state: in the sample world a
    session is being recorded, and [startSession] is accepted there.  It
    logs no warning, replaces the current session and emits the event of a
    started session. *)
Lemma C7_counterexample :
  mode (state Sample.recordingWorld) = MANUAL_SELECTION /\
  (s_id <$> currentSession (state Sample.recordingWorld)) = Some (Some "session_1006_r2") /\
  match startSession Sample.host None None Sample.recordingWorld with
  | Some (sessionId, w') =>
      warnings w' = [] /\
      mode (state w') = AUTO_RECORDING /\
      (s_id <$> currentSession (state w')) = Some (Some "session_1012_r4") /\
      length (emitted w') = S (length (emitted Sample.recordingWorld))
  | None => False
  end.
Proof.
  split; [vm_compute; reflexivity|].
  split; [vm_compute; reflexivity|].
  vm_compute. repeat split.
Qed.

(** The [isPaused] flag outlives a stop: after start, pause and stop the
    mode is inactive, and a resume is accepted and starts a recording. *)
Example resume_after_stop :
  match pauseSession Sample.host Sample.recordingWorld with
  | Some w1 =>
      match stopSession Sample.host w1 with
      | Some w2 =>
          mode (state w2) = INACTIVE /\ isPaused (state w2) = true /\
          match resumeSession Sample.host w2 with
          | Some w3 => warnings w3 = [] /\ mode (state w3) = MANUAL_SELECTION
          | None => False
          end
      | None => False
      end
  | None => False
  end.
Proof. vm_compute. repeat split. Qed.






(** * Further properties of the recorder *)

(** Starting a recording from the panel.  In the inactive mode
    [toggleRecording] ends in manual selection with the capture armed, the
    network monitor on and a new, empty session that has no end time. *)
Theorem toggleRecording_starts_a_session (host : Host) (w : World) :
  mode (state w) = INACTIVE ->
  exists w' sd,
    toggleRecording host w = Some w' /\
    mode (state w') = MANUAL_SELECTION /\ isRecording (state w') = true /\
    isSelectionMode w' = true /\ isMonitoring w' = true /\
    currentSession (state w') = Some sd /\
    actions sd = [] /\ endTime sd = None /\ s_url sd = Some (href host) /\
    ui (state w') = ui (state w) /\ settings (state w') = settings (state w).
Proof.
  intros Hm. unfold toggleRecording, getState. rewrite Hm.
  destruct (FlowFacts.setState_opens host [SetMode MANUAL_SELECTION; SetIsRecording true] w)
    as (w' & Hw' & (sd & t & r & d & Hcs & _ & _ & Hurl & Hact & Hend) & Hsel & Hmon & Hmode & K).
  { simpl. rewrite Hm. discriminate. }
  { left. reflexivity. }
  exists w', sd. split; [exact Hw'|].
  destruct K as (Hrec & _ & Hui & Hset & _).
  split; [destruct (isSelectionMode w); exact Hmode|].
  split; [rewrite <- Hrec; reflexivity|].
  repeat split; try assumption.
  - rewrite <- Hui. reflexivity.
  - rewrite <- Hset. reflexivity.
Qed.

Lemma toggleRecording_starts_a_session_witness :
  mode (state initialWorld) = INACTIVE /\
  exists w', toggleRecording Sample.host initialWorld = Some w' /\
    mode (state w') = MANUAL_SELECTION /\ isSelectionMode w' = true.
Proof.
  split; [reflexivity|].
  destruct (toggleRecording_starts_a_session Sample.host initialWorld eq_refl)
    as (w' & sd & H1 & H2 & _ & H4 & _).
  exists w'. repeat split; assumption.
Defined.

(** Pause and resume.  A pause during a recording keeps the current
    session.  The resume that follows sets the mode to automatic recording;
    the recording engine answers the change of mode by opening a new
    session, so the actions recorded before the pause are gone from the
    state. *)
Theorem pause_then_resume_opens_a_new_session (host : Host) (w : World) :
  isRecording (state w) = true ->
  exists w1 w2 sd,
    pauseSession host w = Some w1 /\
    mode (state w1) = PAUSED /\ isPaused (state w1) = true /\
    currentSession (state w1) = currentSession (state w) /\
    resumeSession host w1 = Some w2 /\
    isPaused (state w2) = false /\ isSelectionMode w2 = true /\
    currentSession (state w2) = Some sd /\ actions sd = [].
Proof.
  intros Hrec.
  destruct (FlowFacts.setState_pauses host [SetIsPaused true; SetMode PAUSED] w eq_refl)
    as (w0 & Hw0 & Hst & _).
  set (w1 := emit SessionPaused (log LOG "Enscriber: Session paused" w0)).
  assert (Hst1 : state w1 = merge (state w) [SetIsPaused true; SetMode PAUSED])
    by exact Hst.
  destruct (FlowFacts.setState_opens host [SetIsPaused false; SetMode AUTO_RECORDING] w1)
    as (w2 & Hw2 & (sd & t & r & d & Hcs & _ & _ & _ & Hact & _) & Hsel & _ & _ & K).
  { rewrite Hst1. simpl. discriminate. }
  { right. rewrite Hst1. reflexivity. }
  exists w1, (emit SessionResumed (log LOG "Enscriber: Session resumed" w2)), sd.
  split.
  { unfold pauseSession, getState. rewrite Hrec. cbn [negb]. rewrite Hw0. reflexivity. }
  rewrite Hst1. split; [reflexivity|]. split; [reflexivity|]. split; [reflexivity|].
  split.
  { unfold resumeSession, getState. rewrite Hst1. cbn [negb isPaused merge fold_left assign].
    rewrite Hw2. reflexivity. }
  destruct K as (_ & Hp & _).
  split; [|split; [exact Hsel|split; [exact Hcs|exact Hact]]].
  change (isPaused (state w2) = false). rewrite <- Hp, Hst1. reflexivity.
Qed.

Lemma pause_then_resume_opens_a_new_session_witness :
  isRecording (state Sample.capturedWorld) = true /\
  (length <$> (actions <$> currentSession (state Sample.capturedWorld))) = Some 1 /\
  exists w1 w2 sd,
    pauseSession Sample.host Sample.capturedWorld = Some w1 /\
    currentSession (state w1) = currentSession (state Sample.capturedWorld) /\
    resumeSession Sample.host w1 = Some w2 /\
    currentSession (state w2) = Some sd /\ actions sd = [].
Proof.
  assert (H : isRecording (state Sample.capturedWorld) = true) by (vm_compute; reflexivity).
  split; [exact H|]. split; [vm_compute; reflexivity|].
  destruct (pause_then_resume_opens_a_new_session Sample.host Sample.capturedWorld H)
    as (w1 & w2 & sd & H1 & _ & _ & H4 & H5 & _ & _ & H8 & H9).
  exists w1, w2, sd. repeat split; assumption.
Defined.

(** While a recording is paused no click is recorded: the pause disarms
    the capture and stops the network monitor, and the click handler
    returns at once for every element. *)
Theorem paused_recording_ignores_clicks (host : Host) (w : World) :
  isRecording (state w) = true -> mode (state w) <> PAUSED ->
  exists w1,
    pauseSession host w = Some w1 /\
    isSelectionMode w1 = false /\ isMonitoring w1 = false /\
    forall (r : Root) (element : Ancestry),
      handleClick host r element w1 = Some (Returned w1).
Proof.
  intros Hrec Hm.
  destruct (FlowFacts.setState_pauses host [SetIsPaused true; SetMode PAUSED] w eq_refl)
    as (w0 & Hw0 & _ & Hoff).
  destruct (Hoff Hm) as [Hsel Hmon].
  exists (emit SessionPaused (log LOG "Enscriber: Session paused" w0)).
  split.
  { unfold pauseSession, getState. rewrite Hrec. cbn [negb]. rewrite Hw0. reflexivity. }
  split; [exact Hsel|]. split; [exact Hmon|].
  intros r element. unfold handleClick.
  change (isSelectionMode (emit SessionPaused (log LOG "Enscriber: Session paused" w0)))
    with (isSelectionMode w0).
  rewrite Hsel. reflexivity.
Qed.

Lemma paused_recording_ignores_clicks_witness :
  isRecording (state Sample.recordingWorld) = true /\
  mode (state Sample.recordingWorld) <> PAUSED /\
  exists w1,
    pauseSession Sample.host Sample.recordingWorld = Some w1 /\
    handleClick Sample.host RDocument Sample.secondSpan w1 = Some (Returned w1).
Proof.
  assert (H : isRecording (state Sample.recordingWorld) = true) by (vm_compute; reflexivity).
  assert (Hm : mode (state Sample.recordingWorld) <> PAUSED).
  { replace (mode (state Sample.recordingWorld)) with MANUAL_SELECTION
      by (vm_compute; reflexivity).
    discriminate. }
  split; [exact H|]. split; [exact Hm|].
  destruct (paused_recording_ignores_clicks Sample.host Sample.recordingWorld H Hm)
    as (w1 & H1 & _ & _ & H4).
  exists w1. split; [exact H1|apply H4].
Defined.

(** The session of [startSession].  [startSession] builds a session with
    the name and the address it was given and installs it together with the
    mode of automatic recording.  When that changes the mode, the recording
    engine opens a session of its own in the same call: afterwards the
    current session is not the one whose id [startSession] returns and
    announces, and it has the address of the page and a generated name.
    Only when the mode was automatic recording before does the session of
    [startSession] stay. *)
Theorem startSession_session_is_replaced (host : Host) (name url : option string)
    (w : World) :
  (mode (state w) <> AUTO_RECORDING ->
   exists sessionId w' sd d,
     startSession host name url w = Some (sessionId, w') /\
     currentSession (state w') = Some sd /\
     s_id sd <> Some sessionId /\
     s_name sd = Some ("Session " +:+ toLocaleString host d) /\
     s_url sd = Some (href host) /\
     isRecording (state w') = true /\
     mode (state w') = (if isSelectionMode w then AUTO_RECORDING else MANUAL_SELECTION)) /\
  (mode (state w) = AUTO_RECORDING ->
   exists sessionId w' sd,
     startSession host name url w = Some (sessionId, w') /\
     currentSession (state w') = Some sd /\
     s_id sd = Some sessionId /\
     s_url sd = Some (match url with Some (String c r) => String c r | _ => href host end) /\
     mode (state w') = AUTO_RECORDING).
Proof.
  split.
  - intros Hm. unfold startSession. RecorderFacts.wsimpl.
    destruct name as [[|c r]|]; RecorderFacts.wsimpl;
      match goal with
      | |- context [setState host ?u ?x] =>
          destruct (FlowFacts.setState_opens host u x)
            as (w1 & -> & (sd & t & r' & d & Hcs & Hid & Hname & Hurl & _) & _ & _ & Hmode & K);
            [ RecorderFacts.wsimpl; congruence | right; reflexivity | ]
      end;
      RecorderFacts.wsimpl; destruct K as (Hrec & _);
      eexists _, _, sd, d; (split; [reflexivity|]); RecorderFacts.wsimpl;
      (split; [exact Hcs|]);
      (split; [rewrite Hid; unfold namespace; intros [= E]; discriminate E|]);
      (split; [exact Hname|]); (split; [exact Hurl|]);
      (split; [rewrite <- Hrec; reflexivity|exact Hmode]).
  - intros Hm. unfold startSession. RecorderFacts.wsimpl.
    destruct name as [[|c r]|]; RecorderFacts.wsimpl;
      (rewrite RecorderFacts.setState_quiet by (RecorderFacts.wsimpl; congruence));
      RecorderFacts.wsimpl; eexists _, _, _; (split; [reflexivity|]);
      RecorderFacts.wsimpl; rewrite RecorderFacts.state_commit; RecorderFacts.wsimpl;
      (split; [reflexivity|]); (split; [reflexivity|]); (split; reflexivity).
Qed.

Lemma startSession_session_is_replaced_witness :
  mode (state initialWorld) <> AUTO_RECORDING /\
  (exists sessionId w' sd,
     startSession Sample.host (Some "Checkout") (Some "https://shop.test/") initialWorld =
       Some (sessionId, w') /\
     currentSession (state w') = Some sd /\
     s_id sd <> Some sessionId /\ s_url sd = Some "https://example.test/") /\
  mode (state (with_state (merge initialState [SetMode AUTO_RECORDING]) initialWorld)) =
    AUTO_RECORDING /\
  (exists sessionId w' sd,
     startSession Sample.host (Some "Checkout") (Some "https://shop.test/")
       (with_state (merge initialState [SetMode AUTO_RECORDING]) initialWorld) =
       Some (sessionId, w') /\
     currentSession (state w') = Some sd /\
     s_id sd = Some sessionId /\ s_url sd = Some "https://shop.test/").
Proof.
  assert (H : mode (state initialWorld) <> AUTO_RECORDING) by discriminate.
  split; [exact H|]. split.
  { destruct (proj1 (startSession_session_is_replaced Sample.host (Some "Checkout")
                       (Some "https://shop.test/") initialWorld) H)
      as (sessionId & w' & sd & d & H1 & H2 & H3 & _ & H5 & _).
    exists sessionId, w', sd. repeat split; assumption. }
  split; [reflexivity|].
  destruct (proj2 (startSession_session_is_replaced Sample.host (Some "Checkout")
                     (Some "https://shop.test/")
                     (with_state (merge initialState [SetMode AUTO_RECORDING]) initialWorld))
              eq_refl)
    as (sessionId & w' & sd & H1 & H2 & H3 & H4 & _).
  exists sessionId, w', sd. repeat split; assumption.
Defined.

(** Clearing the actions.  With a session that has actions, a confirmed
    clear empties the action list of the session and the lists of network
    requests, and leaves the session itself, the mode and the armed
    capture as they are: a recording goes on.  A clear that is not
    confirmed changes nothing. *)
Theorem handleClearActions_empties_the_session (host : Host) (w : World) (s : Session) :
  currentSession (state w) = Some s -> actions s <> [] ->
  (exists w',
     handleClearActions host true w = Some w' /\
     currentSession (state w') = Some (withActions [] s) /\
     networkRequests (state w') = Some [] /\
     capturedRequests w' = [] /\
     mode (state w') = mode (state w) /\
     isRecording (state w') = isRecording (state w) /\
     isSelectionMode w' = isSelectionMode w) /\
  handleClearActions host false w = Some w.
Proof.
  intros Hcs Hact. unfold handleClearActions, getState. rewrite Hcs.
  destruct (actions s) as [|a rest] eqn:Ea; [contradiction|].
  split; [|reflexivity].
  rewrite (RecorderFacts.setState_quiet host [SetCurrentSession (Some (withActions [] s))] w)
    by reflexivity.
  cbn [mbind option_bind].
  rewrite (RecorderFacts.setState_quiet host [SetNetworkRequests (Some [])]) by reflexivity.
  cbn [mbind option_bind].
  rewrite (RecorderFacts.setState_quiet host [SetNetworkRequests (Some [])]) by reflexivity.
  cbn [mbind option_bind].
  eexists. split; [reflexivity|].
  RecorderFacts.wsimpl.
  rewrite !RecorderFacts.state_commit, FlowFacts.capturedRequests_commit,
    !FlowFacts.isSelectionMode_commit.
  RecorderFacts.wsimpl. rewrite !RecorderFacts.state_commit. RecorderFacts.wsimpl.
  rewrite !FlowFacts.isSelectionMode_commit.
  repeat split.
Qed.

Lemma handleClearActions_empties_the_session_witness :
  (length <$> (actions <$> currentSession (state Sample.capturedWorld))) = Some 1 /\
  exists w' sd,
    handleClearActions Sample.host true Sample.capturedWorld = Some w' /\
    currentSession (state w') = Some sd /\ actions sd = [] /\
    isSelectionMode w' = isSelectionMode Sample.capturedWorld.
Proof.
  split; [vm_compute; reflexivity|].
  destruct (currentSession (state Sample.capturedWorld)) as [s|] eqn:Hcs;
    [|vm_compute in Hcs; discriminate].
  assert (Hact : actions s <> []).
  { vm_compute in Hcs. injection Hcs as <-. discriminate. }
  destruct (proj1 (handleClearActions_empties_the_session Sample.host Sample.capturedWorld
                     s Hcs Hact))
    as (w' & H1 & H2 & _ & _ & _ & _ & H7).
  exists w', (withActions [] s). repeat split; assumption.
Defined.


(** The result of [setState] does not depend on the bound of the model:
    with three levels of nesting or more the call returns the same world. *)
Theorem setState_result_independent_of_bound (host : Host) (updates : Updates) (w : World) :
  exists w', setState host updates w = Some w' /\
    forall extra, setStateN host (extra + 3) updates w = Some w'.
Proof.
  destruct (RecorderFacts.setState_total host updates w) as [w' Hw'].
  exists w'. split; [exact Hw'|].
  intros extra. apply FlowFacts.setStateN_more. exact Hw'.
Qed.

(** * Further properties of the capture *)

(** The fallback of the capture filter.  After the ancestor walk the
    filter asks [matches] and [closest] for its exclude selectors, which
    test the class attribute.  So an element that has, or lies under an
    element that has, [enscriber-] in its class attribute is excluded also
    when its [className] is not a string, as on an SVG element, where the
    ancestor walk does not look at the class. *)
Theorem filter_fallback_covers_svg (r : Root) (element : Ancestry) (l : Level) :
  l ∈ element ->
  JS.includes "enscriber-" (classAttr (className (self l))) = true ->
  isExcludedElement r element = true /\
  (forall baseVal, className (self l) = ClassAnimated baseVal ->
     id (self l) = EmptyString -> marked RDocument (self l) = false).
Proof.
  intros Hin Hc. split.
  - unfold isExcludedElement. destruct element as [|a rest]; [reflexivity|].
    destruct (ancestorWalk r (a :: rest)); [reflexivity|].
    apply existsb_exists. exists (ClassContains "enscriber-").
    split; [unfold excludeSelectors; simpl; tauto|].
    apply (ExportFacts.closest_elem_of _ _ l Hin). exact Hc.
  - intros baseVal Hcls Hid. unfold marked. rewrite Hcls, Hid. reflexivity.
Qed.

Lemma filter_fallback_covers_svg_witness :
  let icon :=
    {| before := [];
       self := {| tagName := "svg"; id := EmptyString;
                  className := ClassAnimated "enscriber-icon";
                  attributes := [("class", "enscriber-icon")]; type := EmptyString;
                  value := EmptyString; placeholder := EmptyString; checked := false;
                  selectedOptions := None |};
       children := [] |} in
  ancestorWalk RDocument [icon] = false /\
  isExcludedElement RDocument [icon] = true.
Proof.
  cbv zeta. split; [reflexivity|].
  refine (proj1 (filter_fallback_covers_svg RDocument _ _ _ _)).
  - apply list_elem_of_here.
  - reflexivity.
Defined.

(** The class selector of the export.  The export takes the class name up
    to its first space: that part holds no space, and the class name is
    that part alone or that part, a space and a rest.  For an element
    without id and without attributes whose class name starts with a space
    the part is empty, and the selector written is a lone dot. *)
Theorem export_takes_the_first_class (cls : string) :
  JS.allChars (JS.isNot " ") (firstSegment cls) = true /\
  (cls = firstSegment cls \/ exists rest, cls = firstSegment cls +:+ " " +:+ rest) /\
  (forall (l : Level) (parent : Ancestry) (rest : string),
     id (self l) = EmptyString ->
     getElementAttributes (self l) !! "data-testid" = None ->
     className (self l) = ClassString (String " " rest) ->
     exportSelector (captureElementMetadata l parent) = Some ".").
Proof.
  split; [apply ExportFacts.firstSegment_no_space|].
  split; [apply ExportFacts.firstSegment_split|].
  intros l parent rest Hid Hattr Hcls.
  unfold exportSelector, captureElementMetadata.
  cbn [m_className m_id m_attributes m_textContent xpath].
  rewrite Hcls, Hid, Hattr. reflexivity.
Qed.

Lemma export_takes_the_first_class_witness :
  let l :=
    {| before := [];
       self := {| tagName := "DIV"; id := EmptyString;
                  className := ClassString " lead";
                  attributes := [("class", " lead")]; type := EmptyString;
                  value := EmptyString; placeholder := EmptyString; checked := false;
                  selectedOptions := None |};
       children := [Text "Welcome"] |} in
  firstSegment "btn primary" = "btn" /\
  exportSelector (captureElementMetadata l []) = Some ".".
Proof.
  cbv zeta. split; [reflexivity|].
  refine (proj2 (proj2 (export_takes_the_first_class " lead")) _ [] "lead" _ _ _);
    reflexivity.
Defined.

(** The child index and the XPath index.  [getParentContext] is null for
    an element without parent element.  Otherwise its child index is the
    number of element siblings before the element, counted from 0, while
    the index of [generateXPath] counts the siblings of the same tag name
    from 1: the XPath index is at most the child index plus one. *)
Theorem childIndex_bounds_the_xpath_index (l parent : Level) (rest : Ancestry) :
  getParentContext [l] = None /\
  exists pc,
    getParentContext (l :: parent :: rest) = Some pc /\
    childIndex pc = length (filter (fun n => isElement n = true) (before l)) /\
    childIndex pc <= length (before l) /\
    XPath.siblingIndex l <= S (childIndex pc) /\
    pc_tagName pc = JS.toLowerCase (tagName (self parent)).
Proof.
  split; [reflexivity|]. eexists. split; [reflexivity|].
  cbn [childIndex pc_tagName]. split; [reflexivity|]. split; [|split; [|reflexivity]].
  - apply length_filter.
  - rewrite XPathFacts.siblingIndex_spec.
    pose proof (ExportFacts.countSame_le_elements (tagName (self l)) (before l)). lia.
Qed.

(** * Further properties: keys, unload and edits *)

(** The Escape key.  In selection mode Escape disarms the capture and
    nothing else: the state still says that a recording is going on, in
    the same mode and with the same session, and the network monitor keeps
    its setting, while every click is ignored from then on.  Any other key,
    and any key outside the selection mode, changes nothing. *)
Theorem escape_disarms_the_capture_only (host : Host) (w : World) (key : string) :
  (isSelectionMode w = true ->
   let w' := handleKeyDown "Escape" w in
   isSelectionMode w' = false /\ state w' = state w /\
   isMonitoring w' = isMonitoring w /\ storage w' = storage w /\
   forall (r : Root) (element : Ancestry), handleClick host r element w' = Some (Returned w')) /\
  (key <> "Escape" -> handleKeyDown key w = w) /\
  (isSelectionMode w = false -> handleKeyDown key w = w).
Proof.
  split; [|split].
  - intros Hsel. cbv zeta. unfold handleKeyDown. rewrite Hsel. cbn [negb].
    replace (String.eqb "Escape" "Escape") with true by reflexivity.
    unfold disableSelectionMode. rewrite Hsel.
    repeat split. 
  - intros Hk. unfold handleKeyDown. destruct (negb (isSelectionMode w)); [reflexivity|].
    apply String.eqb_neq in Hk. rewrite Hk. reflexivity.
  - intros Hsel. unfold handleKeyDown. rewrite Hsel. reflexivity.
Qed.

Lemma escape_disarms_the_capture_only_witness :
  isSelectionMode Sample.recordingWorld = true /\
  mode (state (handleKeyDown "Escape" Sample.recordingWorld)) = MANUAL_SELECTION /\
  isRecording (state (handleKeyDown "Escape" Sample.recordingWorld)) = true /\
  handleClick Sample.host RDocument Sample.secondSpan
    (handleKeyDown "Escape" Sample.recordingWorld) =
    Some (Returned (handleKeyDown "Escape" Sample.recordingWorld)).
Proof.
  assert (H : isSelectionMode Sample.recordingWorld = true) by (vm_compute; reflexivity).
  destruct (proj1 (escape_disarms_the_capture_only Sample.host Sample.recordingWorld "a") H)
    as (_ & Hst & _ & _ & Hclick).
  split; [exact H|]. rewrite Hst.
  split; [vm_compute; reflexivity|]. split; [vm_compute; reflexivity|].
  apply Hclick.
Defined.

(** Leaving the page.  When there is a current session,
    [handleBeforeUnload] stores it, stamped with the clock reading as its
    end time, under the key of the session; the state is not changed, so
    the session in the state has no end time from this.  Without a current
    session nothing happens. *)
Theorem unload_stores_the_session (host : Host) (w : World) :
  (forall s, currentSession (state w) = Some s ->
     let sessionData := withEndTime (clock host (ticks w)) s in
     let w' := handleBeforeUnload host w in
     storage w' !! sessionKey sessionData = Some (StoredSession sessionData) /\
     actions sessionData = actions s /\
     state w' = state w /\ isSelectionMode w' = isSelectionMode w /\
     emitted w' = emitted w) /\
  (currentSession (state w) = None -> handleBeforeUnload host w = w).
Proof.
  split.
  - intros s Hcs. cbv zeta. unfold handleBeforeUnload, getState. rewrite Hcs.
    RecorderFacts.wsimpl. repeat split. apply lookup_insert_eq.
  - intros Hcs. unfold handleBeforeUnload, getState. rewrite Hcs. reflexivity.
Qed.

Lemma unload_stores_the_session_witness :
  exists s,
    currentSession (state Sample.capturedWorld) = Some s /\
    storage (handleBeforeUnload Sample.host Sample.capturedWorld)
      !! sessionKey (withEndTime (clock Sample.host (ticks Sample.capturedWorld)) s) =
      Some (StoredSession (withEndTime (clock Sample.host (ticks Sample.capturedWorld)) s)).
Proof.
  destruct (currentSession (state Sample.capturedWorld)) as [s|] eqn:Hcs;
    [|vm_compute in Hcs; discriminate].
  exists s. split; [reflexivity|].
  exact (proj1 (proj1 (unload_stores_the_session Sample.host Sample.capturedWorld) s Hcs)).
Defined.

(** Deleting an action.  A confirmed deletion of the action at an index
    within the list removes that one action: the list is one shorter, the
    actions before the index keep their places and those after it move up
    by one, in their order.  The mode does not change and no listener
    reacts.  An index outside the list, and a deletion that is not
    confirmed, change nothing. *)
Theorem deleteAction_removes_one_action (host : Host) (w : World) (s : Session)
    (actionIndex : nat) :
  currentSession (state w) = Some s ->
  (actionIndex < length (actions s) ->
   exists w' s',
     deleteAction host actionIndex true w = Some w' /\
     currentSession (state w') = Some s' /\
     actions s' = delete actionIndex (actions s) /\
     S (length (actions s')) = length (actions s) /\
     (forall i, i < actionIndex -> actions s' !! i = actions s !! i) /\
     (forall i, actionIndex <= i -> actions s' !! i = actions s !! S i) /\
     s_id s' = s_id s /\ startTime s' = startTime s /\
     mode (state w') = mode (state w)) /\
  (length (actions s) <= actionIndex ->
   forall confirmed, deleteAction host actionIndex confirmed w = Some w) /\
  deleteAction host actionIndex false w = Some w.
Proof.
  intros Hcs. unfold deleteAction, getState. rewrite Hcs.
  split; [|split].
  - intros Hlt.
    replace (length (actions s) <=? actionIndex)%nat with false
      by (symmetry; apply Nat.leb_gt; exact Hlt).
    rewrite RecorderFacts.setState_quiet by reflexivity.
    eexists _, _. split; [reflexivity|].
    rewrite RecorderFacts.state_commit. RecorderFacts.wsimpl.
    split; [reflexivity|].
    cbn [actions withActions s_id startTime].
    change (filterFrom (fun index => negb (index =? actionIndex)%nat) 0 (actions s))
      with (filterFrom (fun index => negb (index =? 0 + actionIndex)%nat) 0 (actions s)).
    rewrite (EditFacts.filterFrom_delete (actions s) 0 actionIndex).
    split; [reflexivity|]. split; [|split; [|split]].
    + rewrite length_delete by (apply lookup_lt_is_Some; exact Hlt). lia.
    + intros i Hi. apply list_lookup_delete_lt, Hi.
    + intros i Hi. apply list_lookup_delete_ge, Hi.
    + repeat split.
  - intros Hge confirmed.
    replace (length (actions s) <=? actionIndex)%nat with true
      by (symmetry; apply Nat.leb_le; exact Hge).
    reflexivity.
  - destruct (length (actions s) <=? actionIndex)%nat; reflexivity.
Qed.

Lemma deleteAction_removes_one_action_witness :
  (length <$> (actions <$> currentSession (state Sample.capturedWorld))) = Some 1 /\
  exists w' s',
    deleteAction Sample.host 0 true Sample.capturedWorld = Some w' /\
    currentSession (state w') = Some s' /\ actions s' = [].
Proof.
  split; [vm_compute; reflexivity|].
  destruct (currentSession (state Sample.capturedWorld)) as [s|] eqn:Hcs;
    [|vm_compute in Hcs; discriminate].
  assert (Hlen : length (actions s) = 1).
  { vm_compute in Hcs. injection Hcs as <-. reflexivity. }
  destruct (proj1 (deleteAction_removes_one_action Sample.host Sample.capturedWorld s 0 Hcs))
    as (w' & s' & H1 & H2 & H3 & _); [rewrite Hlen; lia|].
  exists w', s'. split; [exact H1|]. split; [exact H2|].
  rewrite H3. destruct (actions s) as [|a [|b rest]];
    [discriminate Hlen|reflexivity|discriminate Hlen].
Defined.

(** The copy of [getState] is shallow.  An object that the state holds
    under a key is shared between the state and the copy: the copy holds
    the same reference, and a property assigned through it is seen through
    the state as well. *)
Theorem getState_copy_is_shallow (m : ObjectStore.Manager) (key : string)
    (inner : ObjectStore.Loc) :
  ObjectStore.stateRef m ∈ dom (ObjectStore.heap m) ->
  ObjectStore.properties m (ObjectStore.stateRef m) !! key = Some (ObjectStore.JRef inner) ->
  let copy := (ObjectStore.getState m).1 in
  let m1 := (ObjectStore.getState m).2 in
  copy <> ObjectStore.stateRef m1 /\
  ObjectStore.properties m1 copy !! key = Some (ObjectStore.JRef inner) /\
  ObjectStore.properties m1 (ObjectStore.stateRef m1) !! key = Some (ObjectStore.JRef inner) /\
  forall (k : string) (v : ObjectStore.JVal),
    ObjectStore.properties (ObjectStore.assignProperty inner k v m1) inner !! k = Some v.
Proof.
  intros Hdom Hkey. cbv zeta.
  destruct (ObjectStoreFacts.getState_copy m Hdom) as (Hne & Hprops & _).
  split; [exact Hne|]. split; [rewrite Hprops; exact Hkey|]. split.
  - unfold ObjectStore.getState.
    rewrite (ObjectStoreFacts.properties_alloc_old _ m (ObjectStore.stateRef m) Hdom).
    exact Hkey.
  - intros k v. rewrite ObjectStoreFacts.properties_assign_same. apply lookup_insert_eq.
Qed.

Lemma getState_copy_is_shallow_witness :
  ObjectStore.stateRef Sample.manager ∈ dom (ObjectStore.heap Sample.manager) /\
  ObjectStore.properties Sample.manager (ObjectStore.stateRef Sample.manager) !! "ui" =
    Some (ObjectStore.JRef 1) /\
  ObjectStore.properties (ObjectStore.getState Sample.manager).2
    (ObjectStore.getState Sample.manager).1 !! "ui" = Some (ObjectStore.JRef 1).
Proof.
  assert (Hd : ObjectStore.stateRef Sample.manager ∈ dom (ObjectStore.heap Sample.manager)).
  { apply elem_of_dom. vm_compute. eauto. }
  assert (Hk : ObjectStore.properties Sample.manager (ObjectStore.stateRef Sample.manager)
                 !! "ui" = Some (ObjectStore.JRef 1)) by (vm_compute; reflexivity).
  split; [exact Hd|]. split; [exact Hk|].
  exact (proj1 (proj2 (getState_copy_is_shallow Sample.manager "ui" 1 Hd Hk))).
Defined.
